(** * crypto-ticker: the CoinGecko price client of [api.py]

    A shallow embedding of [APIState] (the failure tracker), the file cache
    and the request pipeline of [CoinGeckoAPI], and the properties of the
    specification that concern them.

    Conventions of the embedding.
    - Python [float] timestamps and prices are rationals ([Q]); rounding of
      floating-point arithmetic is outside the model.  Python [int] is [Z].
    - [time.time()] is an explicit argument [now] of the tracker's methods;
      the client reads it from the clock of the [world], which advances
      while a request is in flight and while the retry wrapper sleeps.
    - A value decoded from JSON is a [json] term; Python's [None] is [JNull].
      [json.dump] followed by [json.load] gives back such a value unchanged.
    - A Python call either returns a value or raises: [outcome].  Client
      methods are functions from a [world] to an outcome and a new world.
    - The network and the disk are an [environment]: a script of answers to
      the successive [session.get] calls, and the file operations that raise
      [IOError].
    - The state-change observer is a function that may raise; what it does to
      the user interface is not modelled. *)

From Stdlib Require Import QArith Qround.
From stdpp Require Import gmap strings list fin_maps.

Local Open Scope Z_scope.
Set Warnings "-register-all".

(** ** Numbers *)

(** [x < y] on floats, as a boolean. *)
Definition Qlt_bool (x y : Q) : bool := negb (Qle_bool y x).

(** Truth value of a float: [0.0] is false. *)
Definition float_truthy (x : Q) : bool := negb (Qeq_bool x 0).

(** Python's [int(x)] on a float: truncation toward zero. *)
Definition int_of_float (x : Q) : Z := Z.quot (Qnum x) (Z.pos (Qden x)).

(** ** The failure tracker: [APIState] *)

Record APIState := mkAPIState {
  paused : bool;
  consecutive_failures : Z;
  auto_pause_until : option Q;
  last_error : option string
}.

(** The dataclass defaults. *)
Definition fresh_state : APIState :=
  {| paused := false; consecutive_failures := 0;
     auto_pause_until := None; last_error := None |}.

(** Length of the auto-pause window, [30 * 60] seconds. *)
Definition AUTO_PAUSE_SECONDS : Q := inject_Z (30 * 60).

(** [if self.auto_pause_until and ...]: set and not [0.0]. *)
Definition armed (s : APIState) : option Q :=
  match auto_pause_until s with
  | Some t => if float_truthy t then Some t else None
  | None => None
  end.

Definition should_skip (s : APIState) (now : Q) : bool :=
  if paused s then true
  else match armed s with
       | Some t => if Qlt_bool now t then true else false
       | None => false
       end.

Definition record_failure (s : APIState) (now : Q) (error : string) : APIState :=
  let n := consecutive_failures s + 1 in
  {| paused := paused s;
     consecutive_failures := n;
     auto_pause_until :=
       if 10 <=? n then Some (now + AUTO_PAUSE_SECONDS)%Q
       else auto_pause_until s;
     last_error := Some error |}.

Definition record_success (s : APIState) : APIState :=
  {| paused := paused s;
     consecutive_failures := 0;
     auto_pause_until := auto_pause_until s;
     last_error := None |}.

Definition resume (s : APIState) : APIState :=
  {| paused := false;
     consecutive_failures := 0;
     auto_pause_until := None;
     last_error := last_error s |}.

Definition get_auto_resume_remaining (s : APIState) (now : Q) : option Z :=
  match armed s with
  | Some t => Some (Z.max 0 (int_of_float (t - now)))
  | None => None
  end.

(** A run of [record_failure] calls, each with the clock reading and the
    message of that call, oldest first. *)
Definition record_failures (calls : list (Q * string)) (s : APIState) : APIState :=
  fold_left (fun st c => record_failure st (fst c) (snd c)) calls s.

(** What can happen to the tracker short of [resume()]: the outcomes that
    the client records, and the [paused] flag set by [CoinGeckoAPI.pause]. *)
Inductive tracker_event :=
| Succeeded
| Failed (now : Q) (error : string)
| Paused.

Definition set_paused (s : APIState) : APIState :=
  {| paused := true;
     consecutive_failures := consecutive_failures s;
     auto_pause_until := auto_pause_until s;
     last_error := last_error s |}.

Definition apply_event (s : APIState) (ev : tracker_event) : APIState :=
  match ev with
  | Succeeded => record_success s
  | Failed now error => record_failure s now error
  | Paused => set_paused s
  end.

(** The event does not read a clock earlier than [t]. *)
Definition not_before (t : Q) (ev : tracker_event) : Prop :=
  match ev with
  | Failed now _ => (t <= now)%Q
  | _ => True
  end.

(** ** Python values and exceptions *)

(** What [json.load] / [response.json()] produce.  A [dict] keeps its items
    in insertion order. *)
Inductive json :=
| JNull
| JBool (b : bool)
| JInt (n : Z)
| JFloat (x : Q)
| JStr (s : string)
| JArr (items : list json)
| JObj (fields : list (string * json)).

(** The exceptions that can occur in [api.py].  [RequestException] stands for
    [requests.RequestException] and all its subclasses (connection errors,
    timeouts, [HTTPError], the JSON decode error of [response.json()]); the
    text is [str(e)]. *)
Inductive pyexn :=
| RateLimitError (text : string)
| RequestException (text : string)
| TypeError
| KeyError
| AttributeError
| ValueError
| OverflowError
| OtherException (text : string).

Inductive outcome (A : Type) :=
| Ret (a : A)
| Raise (e : pyexn).
Arguments Ret {A} a.
Arguments Raise {A} e.

(** Truth value of an object, as tested by [if cached:], [if data:]. *)
Definition py_truthy (v : json) : bool :=
  match v with
  | JNull => false
  | JBool b => b
  | JInt n => negb (n =? 0)
  | JFloat x => float_truthy x
  | JStr s => negb (String.eqb s "")
  | JArr items => match items with [] => false | _ => true end
  | JObj fields => match fields with [] => false | _ => true end
  end.

(** Lookup in the items of a [dict]. *)
Fixpoint dict_get (fields : list (string * json)) (key : string) : option json :=
  match fields with
  | [] => None
  | (k, v) :: rest => if String.eqb k key then Some v else dict_get rest key
  end.

(** [v == n] for an [int] literal [n]: an [int] or [float] of that value
    ([True == 1] and [False == 0] are the only other equalities). *)
Definition py_eq_int (v : json) (n : Z) : bool :=
  match v with
  | JInt m => m =? n
  | JFloat x => Qeq_bool x (inject_Z n)
  | JBool b => (if b then 1 else 0) =? n
  | _ => false
  end.

(** [v[key]] for a [str] key. *)
Definition py_subscript (v : json) (key : string) : outcome json :=
  match v with
  | JObj fields =>
      match dict_get fields key with
      | Some x => Ret x
      | None => Raise KeyError
      end
  | _ => Raise TypeError
  end.

(** The one-character strings of a [str]. *)
Fixpoint chars (s : string) : list string :=
  match s with
  | EmptyString => []
  | String c rest => String c EmptyString :: chars rest
  end.

(** [for x in v]: the elements of a list, the keys of a dict, the characters
    of a str. *)
Definition py_iter (v : json) : outcome (list json) :=
  match v with
  | JArr items => Ret items
  | JObj fields => Ret (map (fun kv => JStr (fst kv)) fields)
  | JStr s => Ret (map JStr (chars s))
  | _ => Raise TypeError
  end.


(** [key in v] for a [str] key. *)
Definition py_contains (v : json) (key : string) : outcome bool :=
  match v with
  | JObj fields => Ret (match dict_get fields key with Some _ => true | None => false end)
  | JArr items =>
      Ret (existsb (fun x => match x with JStr s => String.eqb s key | _ => false end) items)
  | JStr s => Ret (match String.index 0 key s with Some _ => true | None => false end)
  | _ => Raise TypeError
  end.

(** Largest magnitude an [int] may have for [float(n)] not to overflow. *)
Definition FLOAT_INT_LIMIT : Z := 2 ^ 1024 - 2 ^ 970.

(** The parts of the Python runtime that the client calls and that are not
    modelled here. *)
Class Builtins := {
  (** [str.lower] *)
  str_lower : string -> string;
  (** [float(s)] on a [str]; [None] when it raises [ValueError] *)
  float_of_str : string -> option Q;
  (** [str(v)] for a decoded value that is not a [str] *)
  str_of_json : json -> string;
  (** [str(e)] for an interpreter error *)
  str_of_builtin_error : pyexn -> string
}.

Section Values.
Context `{Builtins}.

(** [float(v)] *)
Definition py_float (v : json) : outcome Q :=
  match v with
  | JFloat x => Ret x
  | JInt n => if Z.abs n <? FLOAT_INT_LIMIT then Ret (inject_Z n) else Raise OverflowError
  | JBool b => Ret (if b then 1%Q else 0%Q)
  | JStr s => match float_of_str s with Some x => Ret x | None => Raise ValueError end
  | _ => Raise TypeError
  end.

(** [v.lower()] *)
Definition py_lower (v : json) : outcome string :=
  match v with
  | JStr s => Ret (str_lower s)
  | _ => Raise AttributeError
  end.

(** [str(v)] *)
Definition py_str (v : json) : string :=
  match v with
  | JStr s => s
  | _ => str_of_json v
  end.

(** [str(e)] *)
Definition str_exn (e : pyexn) : string :=
  match e with
  | RateLimitError t | RequestException t | OtherException t => t
  | _ => str_of_builtin_error e
  end.
End Values.

(** ** The world outside the client *)

Record request := mkRequest {
  url : string;
  params : list (string * string)
}.

(** The body of a response: what [response.json()] decodes, or the text of
    the decode error, which is a [RequestException] (requests 2.27 and
    later). *)
Inductive body :=
| Parsed (data : json)
| Unparseable (error_text : string).

Record response := mkResponse {
  status_code : Z;
  (** [str] of the [HTTPError] that [raise_for_status] raises for this response *)
  http_error_text : string;
  content : body
}.

Inductive net_outcome :=
| TransportError (text : string)
| Response (r : response).

Record file := mkFile {
  mtime : Q;
  (** what [json.load] decodes; [None] when the text is not JSON *)
  decoded : option json
}.

Inductive write_outcome :=
| WriteOk
| OpenFails
| DumpFails (residue : option json).

(** The environment answers the [n]-th [session.get] of the run (counted
    from 0) after [latency n] seconds, and decides which file operations
    raise [IOError]. *)
Record environment := mkEnv {
  net : nat -> request -> net_outcome;
  latency : nat -> Q;
  read_fails : string -> bool;
  write_result : string -> write_outcome
}.

(** The fields of [CoinGeckoAPI] other than [state]. *)
Record config := mkConfig {
  cache_dir : string;
  retry_attempts : Z;
  retry_wait : Z;
  on_state_change : option (APIState -> option pyexn)
}.

(** What a call can change: the tracker, the clock, the cache directory, and
    the log of requests sent so far (oldest first). *)
Record world := mkWorld {
  state : APIState;
  clock : Q;
  fs : gmap string file;
  sent : list request
}.

Definition set_state (s : APIState) (w : world) : world :=
  {| state := s; clock := clock w; fs := fs w; sent := sent w |}.

Definition set_fs (m : gmap string file) (w : world) : world :=
  {| state := state w; clock := clock w; fs := m; sent := sent w |}.

(** Time passing. *)
Definition tick (d : Q) (w : world) : world :=
  {| state := state w; clock := (clock w + d)%Q; fs := fs w; sent := sent w |}.

(** A computation that may raise and may change the world. *)
Definition M (A : Type) : Type := world -> outcome A * world.

Definition ret {A} (a : A) : M A := fun w => (Ret a, w).
Definition raise {A} (e : pyexn) : M A := fun w => (Raise e, w).
Definition bind {A B} (m : M A) (k : A -> M B) : M B :=
  fun w => match m w with
           | (Ret a, w') => k a w'
           | (Raise e, w') => (Raise e, w')
           end.
(** [try: m  except Exception as e: h e] *)
Definition try_except {A} (m : M A) (h : pyexn -> M A) : M A :=
  fun w => match m w with
           | (Ret a, w') => (Ret a, w')
           | (Raise e, w') => h e w'
           end.
Definition lift {A} (o : outcome A) : M A := fun w => (o, w).
Definition get_world : M world := fun w => (Ret w, w).
Definition modify (f : world -> world) : M unit := fun w => (Ret tt, f w).

#[global] Instance M_ret : MRet M := @ret.
#[global] Instance M_bind : MBind M := fun A B k m => bind m k.

(** Pure code that may raise. *)
#[global] Instance outcome_ret : MRet outcome := @Ret.
#[global] Instance outcome_bind : MBind outcome :=
  fun A B k o => match o with Ret a => k a | Raise e => Raise e end.

(** [sep.join(parts)]; every part must be a [str]. *)
Fixpoint str_join (sep : string) (parts : list json) : outcome string :=
  match parts with
  | [] => Ret ""
  | [JStr s] => Ret s
  | JStr s :: rest => tail ← str_join sep rest; Ret (s +:+ sep +:+ tail)
  | _ :: _ => Raise TypeError
  end.

(** ** The client: [CoinGeckoAPI] *)

Definition BASE_URL : string := "https://api.coingecko.com/api/v3".

(** [timedelta(hours=24)], in seconds. *)
Definition CACHE_DURATION : Q := inject_Z (24 * 3600).

(** The fallback of [get_coin_list]. *)
Definition default_coins : json :=
  JArr [ JObj [("id", JStr "bitcoin"); ("symbol", JStr "btc"); ("name", JStr "Bitcoin")];
         JObj [("id", JStr "ethereum"); ("symbol", JStr "eth"); ("name", JStr "Ethereum")] ].


(** [raise_for_status] raises for the 4xx and 5xx codes. *)
Definition is_http_error (code : Z) : bool := (400 <=? code) && (code <? 600).

(** The body check of [do_request]: [Some text] when the decoded body carries
    a rate-limit status, with the argument of the [RateLimitError] as text. *)
Definition embedded_rate_limit `{Builtins} (data : json) : option string :=
  match data with
  | JObj fields =>
      match dict_get fields "status" with
      | Some (JObj status) =>
          match dict_get status "error_code" with
          | Some code =>
              if py_eq_int code 429 then
                Some (match dict_get status "error_message" with
                      | Some m => py_str m
                      | None => "Rate limited"
                      end)
              else None
          | None => None
          end
      | _ => None
      end
  | _ => None
  end.

(** The message handed to [record_failure] by the two [except] clauses. *)
Definition failure_message `{Builtins} (e : pyexn) : string :=
  match e with
  | RateLimitError t => "Rate limited: " +:+ t
  | _ => str_exn e
  end.

Section Client.
Context `{Builtins} (env : environment) (cfg : config).

Definition _get_cache_path (name : string) : string :=
  cache_dir cfg +:+ "/" +:+ name +:+ ".json".

Definition _is_cache_valid (path : string) (w : world) : bool :=
  match fs w !! path with
  | None => false
  | Some f => Qlt_bool (clock w - mtime f) CACHE_DURATION
  end.

(** Returns [JNull] (Python's [None]) on a miss; never raises. *)
Definition _load_cache (name : string) (w : world) : json :=
  let cache_path := _get_cache_path name in
  if _is_cache_valid cache_path w then
    if read_fails env cache_path then JNull
    else match fs w !! cache_path with
         | Some f => match decoded f with Some v => v | None => JNull end
         | None => JNull
         end
  else JNull.

Definition _save_cache (name : string) (data : json) (w : world) : world :=
  let cache_path := _get_cache_path name in
  match write_result env cache_path with
  | WriteOk =>
      set_fs (<[cache_path := {| mtime := clock w; decoded := Some data |}]> (fs w)) w
  | OpenFails => w
  | DumpFails residue =>
      set_fs (<[cache_path := {| mtime := clock w; decoded := residue |}]> (fs w)) w
  end.

(** What the observer raises, if anything, when it is shown [s]. *)
Definition callback_raises (s : APIState) : option pyexn :=
  match on_state_change cfg with
  | Some callback => callback s
  | None => None
  end.

Definition _notify_state_change : M unit := fun w =>
  match callback_raises (state w) with
  | Some e => (Raise e, w)
  | None => (Ret tt, w)
  end.

(** The world once [session.get] has come back: the request is logged and
    the clock has moved by the latency of that call. *)
Definition after_get (req : request) (w : world) : world :=
  {| state := state w; clock := (clock w + latency env (length (sent w)))%Q;
     fs := fs w; sent := sent w ++ [req] |}.

(** One attempt: [session.get], then the checks on the response. *)
Definition do_request (req : request) : M json := fun w =>
  let w' := after_get req w in
  match net env (length (sent w)) req with
  | TransportError text => (Raise (RequestException text), w')
  | Response r =>
      if status_code r =? 429 then (Raise (RateLimitError "Rate limited by API"), w')
      else if is_http_error (status_code r) then
        (Raise (RequestException (http_error_text r)), w')
      else match content r with
           | Unparseable text => (Raise (RequestException text), w')
           | Parsed data =>
               match embedded_rate_limit data with
               | Some text => (Raise (RateLimitError text), w')
               | None => (Ret data, w')
               end
           end
  end.

(** The [@retry] wrapper: a [RequestException] is retried after
    [retry_wait] seconds while attempts remain; the last one is re-raised;
    any other exception passes through at once.  ([retry_wait] comes from a
    settings field that ranges over 1..60.) *)
Fixpoint with_retry (retries_left : nat) (req : request) : M json :=
  try_except (do_request req) (fun e =>
    match e, retries_left with
    | RequestException _, S k =>
        modify (tick (inject_Z (retry_wait cfg)));; with_retry k req
    | _, _ => raise e
    end).

(** [stop_after_attempt(n)] stops once the attempt number reaches [n]: the
    first attempt is always made. *)
Definition retries_allowed : nat := Z.to_nat (retry_attempts cfg - 1).

Definition _make_request (req : request) : M json := fun w =>
  if should_skip (state w) (clock w) then (Ret JNull, w)
  else
    try_except
      (result ← with_retry retries_allowed req;
       modify (fun w => set_state (record_success (state w)) w);;
       _notify_state_change;;
       mret result)
      (fun e =>
       modify (fun w =>
         set_state (record_failure (state w) (clock w) (failure_message e)) w);;
       _notify_state_change;;
       mret JNull) w.

Definition coin_list_request : request :=
  {| url := BASE_URL +:+ "/coins/list"; params := [] |}.


Definition get_coin_list : M json :=
  w ← get_world;
  let cached := _load_cache "coin_list" w in
  if py_truthy cached then mret cached
  else
    data ← _make_request coin_list_request;
    if py_truthy data then
      modify (_save_cache "coin_list" data);; mret data
    else mret default_coins.

(** [{coin["symbol"].lower(): coin["id"] for coin in coin_list}]: the key is
    evaluated before the value, a later coin replaces an earlier one with
    the same symbol. *)
Fixpoint build_symbol_to_id (coins : list json) (acc : gmap string json)
  : outcome (gmap string json) :=
  match coins with
  | [] => Ret acc
  | coin :: rest =>
      sym ← py_subscript coin "symbol";
      key ← py_lower sym;
      coin_id ← py_subscript coin "id";
      build_symbol_to_id rest (<[key := coin_id]> acc)
  end.

(** The loop over the requested symbols.  An id that is not a [str] is
    appended to [ids] only: [",".join(ids)] raises [TypeError] for it
    before [symbol_map] is read. *)
Fixpoint resolve (symbols : list string) (symbol_to_id : gmap string json)
    (ids : list json) (symbol_map : gmap string string)
  : list json * gmap string string :=
  match symbols with
  | [] => (ids, symbol_map)
  | sym :: rest =>
      let sym_lower := str_lower sym in
      match symbol_to_id !! sym_lower with
      | Some coin_id =>
          resolve rest symbol_to_id (ids ++ [coin_id])
            (match coin_id with
             | JStr i => <[i := sym_lower]> symbol_map
             | _ => symbol_map
             end)
      | None => resolve rest symbol_to_id ids symbol_map
      end
  end.

(** The loop over [data.items()]. *)
Fixpoint fill (items : list (string * json)) (symbol_map : gmap string string)
    (vs_currency : string) (result : gmap string Q) : outcome (gmap string Q) :=
  match items with
  | [] => Ret result
  | (coin_id, prices) :: rest =>
      match symbol_map !! coin_id with
      | Some sym =>
          present ← py_contains prices vs_currency;
          if (present : bool) then
            v ← py_subscript prices vs_currency;
            x ← py_float v;
            fill rest symbol_map vs_currency (<[sym := x]> result)
          else fill rest symbol_map vs_currency result
      | None => fill rest symbol_map vs_currency result
      end
  end.

(** [data.items()] *)
Definition py_items (data : json) : outcome (list (string * json)) :=
  match data with
  | JObj fields => Ret fields
  | _ => Raise AttributeError
  end.

(** The symbol index built from a coin list. *)
Definition symbol_index (coin_list : json) : outcome (gmap string json) :=
  coins ← py_iter coin_list;
  build_symbol_to_id coins ∅.

Definition price_request (joined vs_currency : string) : request :=
  {| url := BASE_URL +:+ "/simple/price";
     params := [("ids", joined); ("vs_currencies", vs_currency)] |}.

(** [get_prices] from the coin-list lookup on, once its two guards have
    let the call through. *)
Definition prices_after_guards (symbols : list string) (vs_currency : string)
  : M (gmap string Q) :=
  coin_list ← get_coin_list;
  symbol_to_id ← lift (symbol_index coin_list);
  let '(ids, symbol_map) := resolve symbols symbol_to_id [] ∅ in
  match ids with
  | [] => mret ∅
  | _ =>
      joined ← lift (str_join "," ids);
      data ← _make_request (price_request joined vs_currency);
      if py_truthy data then
        items ← lift (py_items data);
        lift (fill items symbol_map vs_currency ∅)
      else mret ∅
  end.

Definition get_prices (symbols : list string) (vs_currency : string)
  : M (gmap string Q) :=
  match symbols with
  | [] => mret ∅
  | _ =>
      w ← get_world;
      if should_skip (state w) (clock w) then mret ∅
      else prices_after_guards symbols vs_currency
  end.

Definition get_price (symbol : string) (vs_currency : string) : M (option Q) :=
  prices ← get_prices [symbol] vs_currency;
  mret (prices !! str_lower symbol).

Definition pause : M unit :=
  modify (fun w => set_state (set_paused (state w)) w);;
  _notify_state_change.

Definition api_resume : M unit :=
  modify (fun w => set_state (resume (state w)) w);;
  _notify_state_change.

Definition is_paused (w : world) : bool := should_skip (state w) (clock w).
End Client.

(** ** Notions of the specification *)

(** A rate-limit outcome, in the words of the specification: HTTP status 429,
    or a 200 response whose JSON body is a dict with a nested status dict
    whose error code equals 429.  The second component is the text that
    identifies the condition. *)
Inductive rate_limit_response `{Builtins} : response -> string -> Prop :=
| rate_limit_by_status (r : response) :
    status_code r = 429 ->
    rate_limit_response r "Rate limited by API"
| rate_limit_in_body (r : response) (fields status : list (string * json)) (code : json) :
    status_code r = 200 ->
    content r = Parsed (JObj fields) ->
    dict_get fields "status" = Some (JObj status) ->
    dict_get status "error_code" = Some code ->
    py_eq_int code 429 = true ->
    rate_limit_response r
      (match dict_get status "error_message" with
       | Some m => py_str m
       | None => "Rate limited"
       end).

(** The shape [{"status": {"error_code": 429, ...}}] of a decoded body. *)
Definition rate_limit_shape (data : json) : Prop :=
  exists (fields status : list (string * json)) (code : json),
    data = JObj fields
    /\ dict_get fields "status" = Some (JObj status)
    /\ dict_get status "error_code" = Some code
    /\ py_eq_int code 429 = true.

(** An observer that never raises; no observer at all is one. *)
Definition observer_quiet (cfg : config) : Prop :=
  forall s : APIState, callback_raises cfg s = None.

(** An entry of the coin list as the provider documents it: a dict whose
    "symbol" and "id" are strings. *)
Definition coin_record (coin : json) : Prop :=
  exists sym id : string,
    py_subscript coin "symbol" = Ret (JStr sym)
    /\ py_subscript coin "id" = Ret (JStr id).





(** ** Sample instances

    A runtime, environments and client configurations on which the
    definitions are evaluated. *)

Definition ascii_lower_char (c : Ascii.ascii) : Ascii.ascii :=
  let n := Ascii.nat_of_ascii c in
  if ((65 <=? n)%nat && (n <=? 90)%nat)%bool then Ascii.ascii_of_nat (n + 32) else c.

(** [str.lower] on ASCII text. *)
Fixpoint ascii_lower (s : string) : string :=
  match s with
  | EmptyString => EmptyString
  | String c rest => String (ascii_lower_char c) (ascii_lower rest)
  end.

(** A runtime for ASCII tickers.  None of the sample runs below converts a
    [str] to [float], prints a value that is not a [str], or prints an
    interpreter error, so the last three fields are never consulted. *)
Definition ascii_builtins : Builtins :=
  {| str_lower := ascii_lower;
     float_of_str := fun _ => None;
     str_of_json := fun _ => "<value>";
     str_of_builtin_error := fun _ => "<error>" |}.

(** The client as [__init__] leaves it: three attempts, five seconds apart,
    no observer. *)
Definition default_config : config :=
  {| cache_dir := ".btcticker_cache"; retry_attempts := 3; retry_wait := 5;
     on_state_change := None |}.

(** A client whose observer raises on every notification. *)
Definition raising_observer_config : config :=
  {| cache_dir := ".btcticker_cache"; retry_attempts := 3; retry_wait := 5;
     on_state_change := Some (fun _ => Some (OtherException "observer failed")) |}.

(** An environment whose provider gives the same answer to every request,
    after one second, and whose disk works. *)
Definition constant_env (answer : net_outcome) : environment :=
  {| net := fun _ _ => answer;
     latency := fun _ => 1%Q;
     read_fails := fun _ => false;
     write_result := fun _ => WriteOk |}.

Definition ok_response (data : json) : net_outcome :=
  Response {| status_code := 200; http_error_text := ""; content := Parsed data |}.

(** An environment whose provider gives [first] to the first request of the
    run and [later] to all that follow. *)
Definition scripted_env (first later : net_outcome) : environment :=
  {| net := fun n _ => match n with O => first | S _ => later end;
     latency := fun _ => 1%Q;
     read_fails := fun _ => false;
     write_result := fun _ => WriteOk |}.

Definition bitcoin_record : json :=
  JObj [("id", JStr "bitcoin"); ("symbol", JStr "btc"); ("name", JStr "Bitcoin")].

(** A coin list with one coin. *)
Definition bitcoin_only : json := JArr [bitcoin_record].


(** The provider's answer when it wants the client to back off. *)
Definition too_many_requests : response :=
  {| status_code := 429; http_error_text := "429 Client Error: Too Many Requests";
     content := Unparseable "" |}.

(** A world at time [t] with an empty cache directory and nothing sent. *)
Definition empty_world (s : APIState) (t : Q) : world :=
  {| state := s; clock := t; fs := ∅; sent := [] |}.

(** ** The rest of the client and its callers *)




(** What [do_request] makes of the answer to [session.get]: the status
    check, [raise_for_status], the decoding and the body check. *)
Definition attempt_result `{Builtins} (o : net_outcome) : outcome json :=
  match o with
  | TransportError text => Raise (RequestException text)
  | Response r =>
      if status_code r =? 429 then Raise (RateLimitError "Rate limited by API")
      else if is_http_error (status_code r) then Raise (RequestException (http_error_text r))
      else match content r with
           | Unparseable text => Raise (RequestException text)
           | Parsed data =>
               match embedded_rate_limit data with
               | Some text => Raise (RateLimitError text)
               | None => Ret data
               end
           end
  end.



(** Truth value of [api.state.last_error]: set and not the empty string. *)
Definition reportable_error (s : APIState) : option string :=
  match last_error s with
  | Some m => if String.eqb m "" then None else Some m
  | None => None
  end.

(** The signals of [PriceWorker]. *)
Inductive signal :=
| price_fetched (price : Q)
| secondary_fetched (prices : gmap string Q)
| fetch_error (message : string)
| fetch_success.

Section Callers.
Context `{Builtins} (env : environment) (cfg : config).



(** One call of [_make_request] after the other, results dropped. *)
Definition run_requests (reqs : list request) (w : world) : world :=
  fold_left (fun w1 req => snd (_make_request env cfg req w1)) reqs w.

(** [CryptoTicker._check_auto_resume] of [main.py]; the result tells
    whether a price update was scheduled. *)
Definition _check_auto_resume : M bool := fun w =>
  match get_auto_resume_remaining (state w) (clock w) with
  | Some remaining =>
      if remaining <=? 0 then (api_resume cfg;; mret true) w
      else (Ret false, w)
  | None => (Ret false, w)
  end.

(** [CryptoTicker._on_pause_toggled] of [main.py]; the result tells whether
    a price update was scheduled. *)
Definition _on_pause_toggled (pause_requested : bool) : M bool :=
  if pause_requested then pause cfg;; mret false
  else api_resume cfg;; mret true.
End Callers.

Section Worker.
Context `{Builtins} (env : environment).

(** The module-level [get_price] of [api.py]; [api] is the global [_api]. *)
Definition module_get_price (api : option config) (symbol vs_currency : string)
  : M (option Q) :=
  match api with
  | Some cfg => get_price env cfg symbol vs_currency
  | None => mret None
  end.

(** The module-level [get_prices] of [api.py]. *)
Definition module_get_prices (api : option config) (symbols : list string)
    (vs_currency : string) : M (gmap string Q) :=
  match api with
  | Some cfg => get_prices env cfg symbols vs_currency
  | None => mret ∅
  end.

(** [elif api and api.state.last_error: self.fetch_error.emit(...)] *)
Definition report_error (api : option config) (w : world) : list signal :=
  match api with
  | Some _ =>
      match reportable_error (state w) with
      | Some m => [fetch_error m]
      | None => []
      end
  | None => []
  end.

(** [PriceWorker.fetch] of [price_worker.py], for the configuration it reads
    under its mutex; the result lists the signals emitted, in order. *)
Definition fetch (api : option config) (symbol vs_currency : string)
    (secondary : list string) (w : world) : list signal * world :=
  if match api with Some _ => is_paused w | None => false end then ([], w)
  else
    match module_get_price api symbol vs_currency w with
    | (Raise e, w1) => ([fetch_error (str_exn e)], w1)
    | (Ret price, w1) =>
        let emitted :=
          match price with
          | Some p => [price_fetched p; fetch_success]
          | None => report_error api w1
          end in
        match secondary with
        | [] => (emitted, w1)
        | _ =>
            match module_get_prices api secondary vs_currency w1 with
            | (Raise e, w2) => (emitted ++ [fetch_error (str_exn e)], w2)
            | (Ret prices, w2) =>
                if decide (prices = ∅) then (emitted ++ report_error api w2, w2)
                else (emitted ++ [secondary_fetched prices], w2)
            end
        end
    end.
End Worker.

(** ** Auxiliary results on numbers *)

Lemma Qlt_bool_iff (x y : Q) : Qlt_bool x y = true <-> (x < y)%Q.
Proof.
  unfold Qlt_bool. rewrite negb_true_iff, <- not_true_iff_false, Qle_bool_iff.
  split; [apply Qnot_le_lt | apply Qlt_not_le].
Qed.

Lemma Qlt_bool_false_iff (x y : Q) : Qlt_bool x y = false <-> (y <= x)%Q.
Proof.
  unfold Qlt_bool. rewrite negb_false_iff. apply Qle_bool_iff.
Qed.

Lemma float_truthy_pos (x : Q) : (0 < x)%Q -> float_truthy x = true.
Proof.
  intros Hx. unfold float_truthy. apply negb_true_iff, not_true_iff_false.
  rewrite Qeq_bool_iff. intros Heq. rewrite Heq in Hx.
  exact (Qlt_irrefl 0 Hx).
Qed.

Lemma int_of_float_nonneg (x : Q) : (0 <= x)%Q -> int_of_float x = Qfloor x.
Proof.
  destruct x as [n d]. unfold Qle, int_of_float, Qfloor. simpl.
  intros Hn. apply Z.quot_div_nonneg; lia.
Qed.

Lemma int_of_float_nonpos (x : Q) : (x <= 0)%Q -> int_of_float x <= 0.
Proof.
  destruct x as [n d]. unfold Qle, int_of_float. simpl. intros Hn.
  rewrite <- (Z.opp_involutive n), Z.quot_opp_l by lia.
  assert (0 <= Z.quot (- n) (Z.pos d)) by (apply Z.quot_pos; lia). lia.
Qed.

(** ** The failure tracker *)

Example record_failure_below_threshold :
  record_failure fresh_state 5 "boom"
  = {| paused := false; consecutive_failures := 1;
       auto_pause_until := None; last_error := Some "boom" |}.
Proof. reflexivity. Qed.

Example should_skip_after_ten :
  should_skip (record_failures (repeat (100%Q, "boom") 10) fresh_state) 1899 = true
  /\ should_skip (record_failures (repeat (100%Q, "boom") 10) fresh_state) 1900 = false
  /\ should_skip (record_failures (repeat (100%Q, "boom") 9) fresh_state) 100 = false.
Proof. repeat split; reflexivity. Qed.


(** Three attempts, five seconds apart, against a provider that never
    answers: three requests, one recorded failure, [None] returned. *)
Example transport_failure_uses_all_attempts :
  let res := @_make_request ascii_builtins (constant_env (TransportError "timed out"))
               default_config coin_list_request (empty_world fresh_state 1000) in
  fst res = Ret JNull
  /\ sent (snd res) = [coin_list_request; coin_list_request; coin_list_request]
  /\ clock (snd res) = (1000 + 1 + 5 + 1 + 5 + 1)%Q
  /\ state (snd res) = record_failure fresh_state (1000 + 1 + 5 + 1 + 5 + 1) "timed out".
Proof. repeat split. Qed.

Lemma record_failures_snoc (calls : list (Q * string)) (now : Q) (error : string)
    (s : APIState) :
  record_failures (calls ++ [(now, error)]) s
  = record_failure (record_failures calls s) now error.
Proof. unfold record_failures. rewrite fold_left_app. reflexivity. Qed.

Lemma record_failures_count (calls : list (Q * string)) (s : APIState) :
  consecutive_failures (record_failures calls s)
  = consecutive_failures s + Z.of_nat (length calls).
Proof.
  revert s. induction calls as [|c calls IH]; intros s.
  - simpl. lia.
  - change (record_failures (c :: calls) s)
      with (record_failures calls (record_failure s (fst c) (snd c))).
    rewrite IH. simpl. lia.
Qed.

Lemma record_failures_paused (calls : list (Q * string)) (s : APIState) :
  paused (record_failures calls s) = paused s.
Proof.
  revert s. induction calls as [|c calls IH]; intros s; [reflexivity|].
  change (record_failures (c :: calls) s)
    with (record_failures calls (record_failure s (fst c) (snd c))).
  rewrite IH. reflexivity.
Qed.

(** Below the threshold the window is left as it was. *)
Lemma record_failures_below_threshold (calls : list (Q * string)) (s : APIState) :
  consecutive_failures s + Z.of_nat (length calls) < 10 ->
  auto_pause_until (record_failures calls s) = auto_pause_until s.
Proof.
  revert s. induction calls as [|c calls IH]; intros s Hlt; [reflexivity|].
  change (record_failures (c :: calls) s)
    with (record_failures calls (record_failure s (fst c) (snd c))).
  simpl length in Hlt. rewrite IH by (simpl; lia).
  simpl. destruct (Z.leb_spec 10 (consecutive_failures s + 1)); [lia | reflexivity].
Qed.

Lemma should_skip_resume (s : APIState) (now : Q) : should_skip (resume s) now = false.
Proof. reflexivity. Qed.

Lemma should_skip_armed (s : APIState) (t now : Q) :
  auto_pause_until s = Some t -> (0 < t)%Q -> (now < t)%Q -> should_skip s now = true.
Proof.
  intros Hu Hpos Hlt. unfold should_skip, armed. rewrite Hu.
  rewrite (float_truthy_pos t Hpos).
  destruct (paused s); [reflexivity|].
  apply Qlt_bool_iff in Hlt. rewrite Hlt. reflexivity.
Qed.

Lemma auto_pause_deadline_pos (now : Q) : (0 <= now)%Q -> (0 < now + AUTO_PAUSE_SECONDS)%Q.
Proof.
  intros Hnow. apply Qlt_le_trans with (y := (0 + AUTO_PAUSE_SECONDS)%Q).
  - reflexivity.
  - apply Qplus_le_compat; [exact Hnow | apply Qle_refl].
Qed.

(** A window armed at or after [d] stays so under every event that is not a
    [resume()], as long as the clock does not run backwards. *)
Lemma window_kept (t d : Q) (events : list tracker_event) (s : APIState) :
  Forall (not_before t) events ->
  (exists u : Q, auto_pause_until s = Some u /\ (d <= u)%Q) ->
  (d <= t + AUTO_PAUSE_SECONDS)%Q ->
  exists u : Q,
    auto_pause_until (fold_left apply_event events s) = Some u /\ (d <= u)%Q.
Proof.
  intros Hev. revert s. induction Hev as [|ev events Hev Hrest IH]; intros s Hs Hd;
    [exact Hs|].
  simpl. apply IH; [|exact Hd].
  destruct ev as [|now error|]; simpl; try exact Hs.
  destruct (10 <=? consecutive_failures s + 1); [|exact Hs].
  eexists. split; [reflexivity|].
  apply Qle_trans with (y := (t + AUTO_PAUSE_SECONDS)%Q); [exact Hd|].
  apply Qplus_le_compat; [exact Hev | apply Qle_refl].
Qed.

(** C1. Starting from a fresh tracker (not paused, no window armed, counter
    at 0), fewer than ten consecutive [record_failure] calls leave
    [should_skip] false; the tenth arms the window at the clock reading of
    that call plus 30 minutes, and [should_skip] is then true at every time
    strictly before that deadline; it stays true before that deadline
    whatever is recorded afterwards (successes, later failures, a pause);
    after [resume()] it is false.  The clock reads seconds since the epoch,
    so the reading of the tenth call is not negative. *)
Theorem C1_ten_failures_arm_auto_pause
    (s0 : APIState) (calls : list (Q * string)) (t10 : Q) (e10 : string) :
  paused s0 = false ->
  auto_pause_until s0 = None ->
  consecutive_failures s0 = 0 ->
  length calls = 9%nat ->
  (0 <= t10)%Q ->
  let s := record_failures (calls ++ [(t10, e10)]) s0 in
  (forall (k : nat) (now : Q), (k <= 9)%nat ->
     should_skip (record_failures (take k calls) s0) now = false)
  /\ auto_pause_until s = Some (t10 + AUTO_PAUSE_SECONDS)%Q
  /\ (forall now : Q, (now < t10 + AUTO_PAUSE_SECONDS)%Q -> should_skip s now = true)
  /\ (forall (events : list tracker_event) (now : Q),
        Forall (not_before t10) events ->
        (now < t10 + AUTO_PAUSE_SECONDS)%Q ->
        should_skip (fold_left apply_event events s) now = true)
  /\ (forall (events : list tracker_event) (now : Q),
        should_skip (resume (fold_left apply_event events s)) now = false).
Proof.
  intros Hp Hu Hc Hlen Ht s.
  assert (Hs : auto_pause_until s = Some (t10 + AUTO_PAUSE_SECONDS)%Q).
  { subst s. rewrite record_failures_snoc. simpl.
    rewrite record_failures_count, Hc, Hlen. reflexivity. }
  split; [|split; [exact Hs|split; [|split]]].
  - intros k now Hk. unfold should_skip, armed.
    rewrite record_failures_paused, Hp.
    rewrite record_failures_below_threshold, Hu; [reflexivity|].
    rewrite Hc, length_take. lia.
  - intros now Hnow. apply (should_skip_armed s _ now Hs); [|exact Hnow].
    apply auto_pause_deadline_pos, Ht.
  - intros events now Hev Hnow.
    destruct (window_kept t10 (t10 + AUTO_PAUSE_SECONDS)%Q events s Hev) as (u & Hu' & Hle).
    + exists (t10 + AUTO_PAUSE_SECONDS)%Q. split; [exact Hs | apply Qle_refl].
    + apply Qle_refl.
    + apply (should_skip_armed _ u now Hu').
      * apply Qlt_le_trans with (y := (t10 + AUTO_PAUSE_SECONDS)%Q);
          [apply auto_pause_deadline_pos, Ht | exact Hle].
      * apply Qlt_le_trans with (y := (t10 + AUTO_PAUSE_SECONDS)%Q); assumption.
  - intros events now. apply should_skip_resume.
Qed.

Lemma C1_ten_failures_witness :
  auto_pause_until
    (record_failures (repeat (100%Q, "timeout") 9 ++ [(160%Q, "timeout")]) fresh_state)
  = Some (160 + AUTO_PAUSE_SECONDS)%Q
  /\ should_skip
       (record_failures (repeat (100%Q, "timeout") 9 ++ [(160%Q, "timeout")]) fresh_state)
       1959
     = true
  /\ should_skip
       (fold_left apply_event [Succeeded; Failed 200 "timeout"]
          (record_failures (repeat (100%Q, "timeout") 9 ++ [(160%Q, "timeout")])
             fresh_state))
       1959
     = true.
Proof.
  destruct (C1_ten_failures_arm_auto_pause fresh_state
              (repeat (100%Q, "timeout") 9) 160 "timeout"
              eq_refl eq_refl eq_refl eq_refl ltac:(discriminate))
    as (_ & Harm & Hskip & Hkept & _).
  split; [exact Harm|]. split; [apply Hskip; reflexivity|].
  apply Hkept; [|reflexivity].
  repeat constructor. discriminate.
Defined.

(** C2, as the specification has it, fails: the eleventh failure, a minute
    after the tenth, moves the deadline from 1800 to 1860. *)
Lemma C2_window_rearmed_counterexample :
  let s := record_failures (repeat (0%Q, "down") 10) fresh_state in
  consecutive_failures s = 10
  /\ auto_pause_until s = Some (0 + AUTO_PAUSE_SECONDS)%Q
  /\ consecutive_failures (record_failure s 60 "down") = 11
  /\ auto_pause_until (record_failure s 60 "down") = Some (60 + AUTO_PAUSE_SECONDS)%Q
  /\ ~ (60 + AUTO_PAUSE_SECONDS == 0 + AUTO_PAUSE_SECONDS)%Q
  /\ auto_pause_until (record_failure s 60 "down") <> auto_pause_until s.
Proof.
  repeat split; try reflexivity; vm_compute; discriminate.
Qed.

(** C2, amended. Every [record_failure] increments [consecutive_failures]
    and sets [last_error]; it leaves [paused] alone; when the incremented
    counter is at least 10, which is so for every call after the threshold
    was crossed, it arms [auto_pause_until] anew at the clock reading of
    that call plus 30 minutes, so a later failure moves the deadline later;
    below the threshold it leaves [auto_pause_until] unchanged. *)
Theorem C2_record_failure_rearms (s : APIState) (now : Q) (error : string) :
  consecutive_failures (record_failure s now error) = consecutive_failures s + 1
  /\ last_error (record_failure s now error) = Some error
  /\ paused (record_failure s now error) = paused s
  /\ (10 <= consecutive_failures s + 1 ->
      auto_pause_until (record_failure s now error) = Some (now + AUTO_PAUSE_SECONDS)%Q
      /\ forall t0 : Q, auto_pause_until s = Some (t0 + AUTO_PAUSE_SECONDS)%Q ->
           (t0 < now)%Q -> (t0 + AUTO_PAUSE_SECONDS < now + AUTO_PAUSE_SECONDS)%Q)
  /\ (consecutive_failures s + 1 < 10 ->
      auto_pause_until (record_failure s now error) = auto_pause_until s).
Proof.
  repeat split; simpl.
  - destruct (Z.leb_spec 10 (consecutive_failures s + 1)); [reflexivity | lia].
  - intros t0 _ Hlt. apply Qplus_lt_le_compat; [exact Hlt | apply Qle_refl].
  - destruct (Z.leb_spec 10 (consecutive_failures s + 1)); [lia | reflexivity].
Qed.

Lemma C2_record_failure_rearms_witness :
  auto_pause_until
    (record_failure (record_failures (repeat (0%Q, "down") 10) fresh_state) 60 "down")
  = Some (60 + AUTO_PAUSE_SECONDS)%Q.
Proof.
  destruct (C2_record_failure_rearms
              (record_failures (repeat (0%Q, "down") 10) fresh_state) 60 "down")
    as (_ & _ & _ & Harm & _).
  destruct (Harm ltac:(vm_compute; discriminate)) as [Hu _]. exact Hu.
Defined.

Lemma armed_some (s : APIState) (t : Q) :
  auto_pause_until s = Some t -> ~ (t == 0)%Q -> armed s = Some t.
Proof.
  intros Hu Hne. unfold armed, float_truthy. rewrite Hu.
  destruct (Qeq_bool t 0) eqn:E; [|reflexivity].
  apply Qeq_bool_iff in E. contradiction.
Qed.

Lemma armed_inv (s : APIState) (t : Q) :
  armed s = Some t -> auto_pause_until s = Some t /\ ~ (t == 0)%Q.
Proof.
  unfold armed, float_truthy. destruct (auto_pause_until s) as [u|]; [|discriminate].
  destruct (Qeq_bool u 0) eqn:E; [discriminate|].
  intros [= ->]. split; [reflexivity | apply Qeq_bool_neq, E].
Qed.

(** Whole seconds left in a window that has not elapsed. *)
Lemma whole_seconds_left (t now : Q) :
  (now < t)%Q ->
  let n := Z.max 0 (int_of_float (t - now)) in
  (inject_Z n <= t - now)%Q /\ (t - now < inject_Z n + 1)%Q.
Proof.
  intros Hlt n.
  assert (Hpos : (0 <= t - now)%Q).
  { apply Qlt_le_weak. unfold Qminus. rewrite <- (Qplus_opp_r now).
    apply Qplus_lt_le_compat; [exact Hlt | apply Qle_refl]. }
  assert (Hn : n = Qfloor (t - now)).
  { subst n. rewrite int_of_float_nonneg by exact Hpos.
    assert (0 <= Qfloor (t - now)).
    { change 0 with (Qfloor 0). apply Qfloor_resp_le, Hpos. }
    lia. }
  rewrite Hn. split; [apply Qfloor_le|].
  pose proof (Qlt_floor (t - now)) as Hfl.
  rewrite inject_Z_plus in Hfl. exact Hfl.
Qed.

(** C9, as the specification has it, fails: 200 seconds after the window
    armed by ten failures at time 0 has elapsed, [should_skip] is false and
    [get_auto_resume_remaining] is 0, not none. *)
Lemma C9_elapsed_window_counterexample :
  let s := record_failures (repeat (0%Q, "down") 10) fresh_state in
  auto_pause_until s = Some (0 + AUTO_PAUSE_SECONDS)%Q
  /\ should_skip s 2000 = false
  /\ get_auto_resume_remaining s 2000 = Some 0
  /\ get_auto_resume_remaining s 2000 <> None.
Proof.
  repeat split; try reflexivity. vm_compute. discriminate.
Qed.

(** C9, amended. While [auto_pause_until] is set (and not [0.0]),
    [get_auto_resume_remaining] is the float difference to the deadline
    truncated to an [int] and floored at 0: the whole seconds left while the
    deadline is ahead, and 0, not none, once it has passed.  It is none
    exactly when [auto_pause_until] is unset or [0.0], in particular after
    [resume()]. *)
Theorem C9_auto_resume_remaining (s : APIState) (now : Q) :
  (forall t : Q, auto_pause_until s = Some t -> ~ (t == 0)%Q ->
     get_auto_resume_remaining s now = Some (Z.max 0 (int_of_float (t - now)))
     /\ 0 <= Z.max 0 (int_of_float (t - now))
     /\ ((now < t)%Q ->
         (inject_Z (Z.max 0 (int_of_float (t - now))) <= t - now)%Q
         /\ (t - now < inject_Z (Z.max 0 (int_of_float (t - now))) + 1)%Q)
     /\ ((t <= now)%Q -> get_auto_resume_remaining s now = Some 0))
  /\ (get_auto_resume_remaining s now = None <-> armed s = None)
  /\ get_auto_resume_remaining (resume s) now = None.
Proof.
  split; [|split; [|reflexivity]].
  - intros t Hu Hne. unfold get_auto_resume_remaining.
    rewrite (armed_some s t Hu Hne).
    split; [reflexivity|]. split; [lia|]. split.
    + apply whole_seconds_left.
    + intros Hle. f_equal.
      assert (int_of_float (t - now) <= 0); [|lia].
      apply int_of_float_nonpos. unfold Qminus. rewrite <- (Qplus_opp_r now).
      apply Qplus_le_compat; [exact Hle | apply Qle_refl].
  - unfold get_auto_resume_remaining. destruct (armed s); split; congruence.
Qed.

Lemma C9_auto_resume_remaining_witness :
  get_auto_resume_remaining
    (record_failures (repeat (0%Q, "down") 10) fresh_state) (2999 # 10)
  = Some 1500.
Proof.
  destruct (C9_auto_resume_remaining
              (record_failures (repeat (0%Q, "down") 10) fresh_state) (2999 # 10))
    as (Harmed & _ & _).
  destruct (Harmed (0 + AUTO_PAUSE_SECONDS)%Q eq_refl ltac:(vm_compute; discriminate))
    as (Hval & _).
  exact Hval.
Defined.

(** ** The request pipeline *)

Section Pipeline.
Context `{Builtins} (env : environment) (cfg : config).

Lemma with_retry_first_ok (n : nat) (req : request) (w w' : world) (data : json) :
  do_request env req w = (Ret data, w') ->
  with_retry env cfg n req w = (Ret data, w').
Proof.
  intros Hd. destruct n; simpl; unfold try_except; rewrite Hd; reflexivity.
Qed.

Lemma with_retry_not_retried (n : nat) (req : request) (w w' : world) (e : pyexn) :
  do_request env req w = (Raise e, w') ->
  (forall t : string, e <> RequestException t) ->
  with_retry env cfg n req w = (Raise e, w').
Proof.
  intros Hd Hne. destruct n; simpl; unfold try_except; rewrite Hd.
  - destruct e; reflexivity.
  - destruct e; try reflexivity. exfalso. eapply Hne. reflexivity.
Qed.

Lemma do_request_sends_one (req : request) (w : world) :
  snd (do_request env req w) = after_get env req w.
Proof.
  unfold do_request.
  destruct (net env (length (sent w)) req) as [t|r]; [reflexivity|].
  destruct (status_code r =? 429); [reflexivity|].
  destruct (is_http_error (status_code r)); [reflexivity|].
  destruct (content r) as [data|t]; [|reflexivity].
  destruct (embedded_rate_limit data); reflexivity.
Qed.

Lemma embedded_rate_limit_shape (data : json) :
  (exists text : string, embedded_rate_limit data = Some text) <-> rate_limit_shape data.
Proof.
  unfold rate_limit_shape. split.
  - intros [text Ht]. destruct data as [| | | | |items|fields]; try discriminate.
    simpl in Ht.
    destruct (dict_get fields "status") as [[| | | | |items|status]|] eqn:Es;
      try discriminate.
    destruct (dict_get status "error_code") as [code|] eqn:Ec; [|discriminate].
    destruct (py_eq_int code 429) eqn:Eq; [|discriminate].
    exists fields, status, code. auto.
  - intros (fields & status & code & -> & Es & Ec & Eq).
    simpl. rewrite Es, Ec, Eq. eauto.
Qed.

Lemma embedded_rate_limit_none (data : json) :
  ~ rate_limit_shape data -> embedded_rate_limit data = None.
Proof.
  intros Hn. destruct (embedded_rate_limit data) as [text|] eqn:E; [|reflexivity].
  exfalso. apply Hn, embedded_rate_limit_shape. eauto.
Qed.

Lemma do_request_rate_limited (req : request) (w : world) (r : response) (text : string) :
  net env (length (sent w)) req = Response r ->
  rate_limit_response r text ->
  do_request env req w = (Raise (RateLimitError text), after_get env req w).
Proof.
  intros Hnet Hrl. unfold do_request. rewrite Hnet.
  destruct Hrl as [r Hs | r fields status code Hs Hc Hst Hcode Heq].
  - rewrite Hs. reflexivity.
  - rewrite Hs, Hc. simpl. rewrite Hst, Hcode, Heq. reflexivity.
Qed.

Lemma do_request_success (req : request) (w : world) (r : response) (data : json) :
  net env (length (sent w)) req = Response r ->
  200 <= status_code r < 300 ->
  content r = Parsed data ->
  ~ rate_limit_shape data ->
  do_request env req w = (Ret data, after_get env req w).
Proof.
  intros Hnet Hs Hc Hn. unfold do_request, is_http_error. rewrite Hnet, Hc.
  destruct (Z.eqb_spec (status_code r) 429); [lia|].
  destruct (Z.leb_spec 400 (status_code r)); [lia|]. simpl.
  rewrite (embedded_rate_limit_none data Hn). reflexivity.
Qed.

(** What [_make_request] does once the attempts have raised [e] in [w1]. *)
Lemma make_request_failure (req : request) (w w1 : world) (e : pyexn) :
  should_skip (state w) (clock w) = false ->
  with_retry env cfg (retries_allowed cfg) req w = (Raise e, w1) ->
  let w2 := set_state (record_failure (state w1) (clock w1) (failure_message e)) w1 in
  _make_request env cfg req w
  = (match callback_raises cfg (state w2) with
     | Some e' => Raise e'
     | None => Ret JNull
     end, w2).
Proof.
  intros Hskip Hr w2. unfold _make_request. rewrite Hskip.
  unfold try_except, mbind, M_bind, bind. rewrite Hr.
  unfold modify, _notify_state_change. fold w2.
  destruct (callback_raises cfg (state w2)); reflexivity.
Qed.

(** What [_make_request] does once an attempt has returned [data] in [w1]. *)
Lemma make_request_success (req : request) (w w1 : world) (data : json) :
  should_skip (state w) (clock w) = false ->
  with_retry env cfg (retries_allowed cfg) req w = (Ret data, w1) ->
  let w2 := set_state (record_success (state w1)) w1 in
  _make_request env cfg req w
  = match callback_raises cfg (state w2) with
    | None => (Ret data, w2)
    | Some e =>
        let w3 := set_state (record_failure (state w2) (clock w2) (failure_message e)) w2 in
        (match callback_raises cfg (state w3) with
         | Some e' => Raise e'
         | None => Ret JNull
         end, w3)
    end.
Proof.
  intros Hskip Hr w2. unfold _make_request. rewrite Hskip.
  unfold try_except, mbind, M_bind, bind. rewrite Hr.
  unfold modify, _notify_state_change. fold w2.
  destruct (callback_raises cfg (state w2)) as [e|]; [|reflexivity].
  simpl. destruct (callback_raises cfg _); reflexivity.
Qed.

Lemma make_request_skipped (req : request) (w : world) :
  should_skip (state w) (clock w) = true ->
  _make_request env cfg req w = (Ret JNull, w).
Proof. intros Hskip. unfold _make_request. rewrite Hskip. reflexivity. Qed.

End Pipeline.

(** C4. When the tracker does not skip and the first response is a
    rate-limit outcome (status 429, or a 200 response whose decoded body is a
    dict with a status dict whose error code equals 429), [_make_request]
    sends exactly one request whatever the attempt budget (3 in particular),
    records the outcome with [record_failure] under a message that starts
    with "Rate limited: ", and returns no payload: it returns [None], unless
    the observer raises on the notification that follows. *)
Theorem C4_rate_limit_short_circuits `{Builtins}
    (env : environment) (cfg : config) (req : request) (w : world)
    (r : response) (text : string) :
  should_skip (state w) (clock w) = false ->
  net env (length (sent w)) req = Response r ->
  rate_limit_response r text ->
  let w1 := after_get env req w in
  let w2 := set_state (record_failure (state w) (clock w1) ("Rate limited: " +:+ text)) w1 in
  _make_request env cfg req w
  = (match callback_raises cfg (state w2) with
     | Some e => Raise e
     | None => Ret JNull
     end, w2)
  /\ sent w2 = sent w ++ [req]
  /\ length (sent w2) = S (length (sent w))
  /\ (forall data : json, fst (_make_request env cfg req w) = Ret data -> data = JNull).
Proof.
  intros Hskip Hnet Hrl w1 w2.
  assert (Hmr : _make_request env cfg req w
                = (match callback_raises cfg (state w2) with
                   | Some e => Raise e
                   | None => Ret JNull
                   end, w2)).
  { apply (make_request_failure env cfg req w w1 (RateLimitError text) Hskip).
    apply with_retry_not_retried; [|discriminate].
    apply do_request_rate_limited with (r := r); assumption. }
  split; [exact Hmr|]. split; [reflexivity|]. split.
  - simpl. rewrite length_app. simpl. lia.
  - intros data. rewrite Hmr.
    destruct (callback_raises cfg (state w2)); simpl; congruence.
Qed.

Lemma C4_rate_limit_witness :
  let env := constant_env (Response too_many_requests) in
  let req := coin_list_request in
  let res := @_make_request ascii_builtins env default_config req
               (empty_world fresh_state 1000) in
  fst res = Ret JNull
  /\ sent (snd res) = [req]
  /\ last_error (state (snd res)) = Some "Rate limited: Rate limited by API".
Proof.
  intros env req res.
  destruct (@C4_rate_limit_short_circuits ascii_builtins env default_config req
              (empty_world fresh_state 1000) too_many_requests "Rate limited by API"
              eq_refl eq_refl (rate_limit_by_status too_many_requests eq_refl))
    as (Hres & _).
  subst res. rewrite Hres. repeat split.
Defined.

(** C10. The body check of [do_request] fires exactly on a decoded body of
    the shape [{"status": {"error_code": 429, ...}}]: a dict without
    "status", a dict whose "status" is not a dict, and a dict whose status
    has no error code or one that differs from 429 do not trigger it.  For
    every 2xx response with a parseable body of any other shape, and a
    tracker that does not skip, the first attempt returns the body after
    exactly one request, [record_success] is applied to the tracker, and
    [_make_request] returns the body as the payload when the observer does
    not raise; if the observer raises, the failure is recorded on top of the
    state that [record_success] produced. *)
Theorem C10_embedded_error_check `{Builtins} :
  (forall data : json,
     (exists text : string, embedded_rate_limit data = Some text) <-> rate_limit_shape data)
  /\ (forall fields : list (string * json),
        dict_get fields "status" = None -> embedded_rate_limit (JObj fields) = None)
  /\ (forall (fields : list (string * json)) (status : json),
        dict_get fields "status" = Some status ->
        (forall st : list (string * json), status <> JObj st) ->
        embedded_rate_limit (JObj fields) = None)
  /\ (forall (fields st : list (string * json)),
        dict_get fields "status" = Some (JObj st) ->
        (forall code : json, dict_get st "error_code" = Some code -> py_eq_int code 429 = false) ->
        embedded_rate_limit (JObj fields) = None)
  /\ (forall (env : environment) (cfg : config) (req : request) (w : world)
             (r : response) (data : json),
        should_skip (state w) (clock w) = false ->
        net env (length (sent w)) req = Response r ->
        200 <= status_code r < 300 ->
        content r = Parsed data ->
        ~ rate_limit_shape data ->
        let w1 := after_get env req w in
        let w2 := set_state (record_success (state w)) w1 in
        do_request env req w = (Ret data, w1)
        /\ sent w2 = sent w ++ [req]
        /\ (callback_raises cfg (state w2) = None ->
            _make_request env cfg req w = (Ret data, w2))
        /\ (forall e : pyexn, callback_raises cfg (state w2) = Some e ->
            state (snd (_make_request env cfg req w))
            = record_failure (record_success (state w)) (clock w1) (failure_message e))).
Proof.
  split; [apply embedded_rate_limit_shape|].
  split; [intros fields Hs; simpl; rewrite Hs; reflexivity|].
  split.
  { intros fields status Hs Hnd. simpl. rewrite Hs.
    destruct status; try reflexivity. exfalso. eapply Hnd. reflexivity. }
  split.
  { intros fields st Hs Hcode. simpl. rewrite Hs.
    destruct (dict_get st "error_code") as [code|]; [|reflexivity].
    rewrite (Hcode code eq_refl). reflexivity. }
  intros env cfg req w r data Hskip Hnet Hs Hc Hn w1 w2.
  pose proof (do_request_success env req w r data Hnet Hs Hc Hn) as Hd.
  assert (Hmr : _make_request env cfg req w
                = match callback_raises cfg (state w2) with
                  | None => (Ret data, w2)
                  | Some e =>
                      let w3 := set_state
                        (record_failure (state w2) (clock w2) (failure_message e)) w2 in
                      (match callback_raises cfg (state w3) with
                       | Some e' => Raise e'
                       | None => Ret JNull
                       end, w3)
                  end).
  { exact (make_request_success env cfg req w w1 data Hskip
             (with_retry_first_ok env cfg _ req w w1 data Hd)). }
  split; [exact Hd|]. split; [reflexivity|]. split.
  - intros Hq. rewrite Hmr, Hq. reflexivity.
  - intros e He. rewrite Hmr, He. reflexivity.
Qed.

Lemma C10_embedded_error_witness :
  let body := JObj [("status", JObj [("error_code", JInt 404)])] in
  let req := coin_list_request in
  let w := empty_world (record_failure fresh_state 900 "timeout") 1000 in
  @_make_request ascii_builtins (constant_env (ok_response body)) default_config req w
  = (Ret body,
     set_state (record_success (state w))
       (after_get (constant_env (ok_response body)) req w)).
Proof.
  intros body req w.
  destruct (@C10_embedded_error_check ascii_builtins) as (_ & _ & _ & _ & Hrun).
  destruct (Hrun (constant_env (ok_response body)) default_config req w
              {| status_code := 200; http_error_text := ""; content := Parsed body |}
              body eq_refl eq_refl ltac:(simpl; lia) eq_refl)
    as (_ & _ & Hret & _).
  - intros (fields & status & code & Hb & Hs & Hc & Heq).
    injection Hb as <-. simpl in Hs. injection Hs as <-. simpl in Hc.
    injection Hc as <-. discriminate Heq.
  - apply Hret. reflexivity.
Defined.

(** ** The file cache *)

Section Cache.
Context (env : environment) (cfg : config).

Lemma cache_fresh_within (t d : Q) :
  (d < CACHE_DURATION)%Q -> Qlt_bool (t + d - t) CACHE_DURATION = true.
Proof.
  intros Hd. apply Qlt_bool_iff.
  assert (Heq : (t + d - t == d)%Q) by ring.
  rewrite Heq. exact Hd.
Qed.

Lemma load_cache_stale (name : string) (w : world) (f : file) :
  fs w !! _get_cache_path cfg name = Some f ->
  (CACHE_DURATION <= clock w - mtime f)%Q ->
  _load_cache env cfg name w = JNull.
Proof.
  intros Hf Hold. unfold _load_cache, _is_cache_valid. rewrite Hf.
  apply Qlt_bool_false_iff in Hold. rewrite Hold. reflexivity.
Qed.

Lemma load_cache_absent (name : string) (w : world) :
  fs w !! _get_cache_path cfg name = None ->
  _load_cache env cfg name w = JNull.
Proof.
  intros Hf. unfold _load_cache, _is_cache_valid. rewrite Hf. reflexivity.
Qed.

Lemma load_after_save (name : string) (data : json) (w : world) (d : Q) :
  write_result env (_get_cache_path cfg name) = WriteOk ->
  read_fails env (_get_cache_path cfg name) = false ->
  (d < CACHE_DURATION)%Q ->
  _load_cache env cfg name (tick d (_save_cache env cfg name data w)) = data.
Proof.
  intros Hw Hr Hd. unfold _load_cache, _is_cache_valid, _save_cache.
  rewrite Hw, Hr. simpl. rewrite lookup_insert_eq. simpl.
  rewrite (cache_fresh_within (clock w) d Hd). reflexivity.
Qed.
End Cache.

(** C5. A [_save_cache] of a decoded value under any key, followed by a
    [_load_cache] of that key less than 24 hours later, returns the value
    exactly, when the file could be written and can be read; and a
    [_load_cache] of a key whose file is 24 hours old or older reports a
    miss ([None]) although the file still holds a value. *)
Theorem C5_cache_round_trip_and_staleness :
  (forall (env : environment) (cfg : config) (k : string) (p : json) (w : world) (d : Q),
     write_result env (_get_cache_path cfg k) = WriteOk ->
     read_fails env (_get_cache_path cfg k) = false ->
     (d < CACHE_DURATION)%Q ->
     _load_cache env cfg k (tick d (_save_cache env cfg k p w)) = p)
  /\ (forall (env : environment) (cfg : config) (k : string) (p : json) (w : world)
             (t : Q),
        fs w !! _get_cache_path cfg k = Some {| mtime := t; decoded := Some p |} ->
        (CACHE_DURATION <= clock w - t)%Q ->
        _load_cache env cfg k w = JNull).
Proof.
  split.
  - intros env cfg k p w d. apply load_after_save.
  - intros env cfg k p w t Hf Hold.
    apply (load_cache_stale env cfg k w _ Hf). exact Hold.
Qed.

Lemma C5_cache_witness :
  let env := constant_env (TransportError "offline") in
  let w := empty_world fresh_state 1000 in
  _load_cache env default_config "coin_list"
    (tick 86399 (_save_cache env default_config "coin_list" default_coins w))
  = default_coins
  /\ _load_cache env default_config "coin_list"
       (tick 86400 (_save_cache env default_config "coin_list" default_coins w))
     = JNull.
Proof.
  intros env w.
  destruct C5_cache_round_trip_and_staleness as [Hround Hstale].
  split.
  - apply Hround; reflexivity.
  - apply (Hstale env default_config "coin_list" default_coins _ 1000%Q).
    + vm_compute. reflexivity.
    + vm_compute. discriminate.
Defined.

(** ** The coin list *)

Section CoinList.
Context `{Builtins} (env : environment) (cfg : config).

Lemma get_coin_list_cached (w : world) :
  py_truthy (_load_cache env cfg "coin_list" w) = true ->
  get_coin_list env cfg w = (Ret (_load_cache env cfg "coin_list" w), w).
Proof.
  intros Hc. unfold get_coin_list, mbind, M_bind, bind, get_world.
  rewrite Hc. reflexivity.
Qed.

Lemma get_coin_list_miss (w : world) :
  py_truthy (_load_cache env cfg "coin_list" w) = false ->
  get_coin_list env cfg w
  = match _make_request env cfg coin_list_request w with
    | (Ret data, w1) =>
        if py_truthy data then (Ret data, _save_cache env cfg "coin_list" data w1)
        else (Ret default_coins, w1)
    | (Raise e, w1) => (Raise e, w1)
    end.
Proof.
  intros Hc. unfold get_coin_list, mbind, M_bind, bind, get_world.
  rewrite Hc.
  destruct (_make_request env cfg coin_list_request w) as [[data|e] w1];
    [|reflexivity].
  destruct (py_truthy data); reflexivity.
Qed.


End CoinList.



(** ** Price requests *)

Section Prices.
Context `{Builtins} (env : environment) (cfg : config).









(** Symbols that the index does not know leave the loop state as it is. *)
Lemma resolve_unknown (symbols : list string) (idx : gmap string json)
    (ids : list json) (symbol_map : gmap string string) :
  (forall sym : string, sym ∈ symbols -> idx !! str_lower sym = None) ->
  resolve symbols idx ids symbol_map = (ids, symbol_map).
Proof.
  revert ids symbol_map. induction symbols as [|sym rest IH]; intros ids symbol_map Hun;
    [reflexivity|].
  simpl. rewrite (Hun sym) by apply list_elem_of_here.
  apply IH. intros s Hs. apply Hun, list_elem_of_further, Hs.
Qed.

Lemma get_prices_empty (vs_currency : string) (w : world) :
  get_prices env cfg [] vs_currency w = (Ret ∅, w).
Proof. reflexivity. Qed.

Lemma get_prices_skipped (symbols : list string) (vs_currency : string) (w : world) :
  should_skip (state w) (clock w) = true ->
  get_prices env cfg symbols vs_currency w = (Ret ∅, w).
Proof.
  intros Hskip. destruct symbols as [|sym rest]; [reflexivity|].
  unfold get_prices, mbind, M_bind, bind, get_world. rewrite Hskip. reflexivity.
Qed.

Lemma get_prices_after_guards (symbols : list string) (vs_currency : string) (w : world) :
  symbols <> [] ->
  should_skip (state w) (clock w) = false ->
  get_prices env cfg symbols vs_currency w = prices_after_guards env cfg symbols vs_currency w.
Proof.
  intros Hne Hskip. destruct symbols as [|sym rest]; [contradiction|].
  unfold get_prices, mbind, M_bind, bind, get_world. rewrite Hskip. reflexivity.
Qed.

Lemma get_prices_unresolved (symbols : list string) (vs_currency : string)
    (w w1 : world) (coin_list : json) (idx : gmap string json) :
  symbols <> [] ->
  should_skip (state w) (clock w) = false ->
  get_coin_list env cfg w = (Ret coin_list, w1) ->
  symbol_index coin_list = Ret idx ->
  (forall sym : string, sym ∈ symbols -> idx !! str_lower sym = None) ->
  get_prices env cfg symbols vs_currency w = (Ret ∅, w1).
Proof.
  intros Hne Hskip Hcl Hidx Hun.
  rewrite get_prices_after_guards by assumption.
  unfold prices_after_guards, mbind, M_bind, bind, lift. rewrite Hcl, Hidx.
  rewrite (resolve_unknown symbols idx [] ∅ Hun). reflexivity.
Qed.


End Prices.

(** ** Requests sent *)

Section Sent.
Context `{Builtins} (env : environment) (cfg : config).

Lemma with_retry_sent (n : nat) (req : request) (w : world) :
  exists k : nat,
    (1 <= k <= S n)%nat
    /\ sent (snd (with_retry env cfg n req w)) = sent w ++ repeat req k.
Proof.
  revert w. induction n as [|n IH]; intros w; simpl; unfold try_except;
    pose proof (do_request_sends_one env req w) as Hs;
    destruct (do_request env req w) as [[data|e] w1]; simpl in Hs; subst w1.
  - exists 1%nat. split; [lia | reflexivity].
  - exists 1%nat. split; [lia|]. destruct e; reflexivity.
  - exists 1%nat. split; [lia | reflexivity].
  - destruct e; try (exists 1%nat; split; [lia | reflexivity]).
    unfold mbind, M_bind, bind, modify.
    destruct (IH (tick (inject_Z (retry_wait cfg)) (after_get env req w)))
      as (k & Hk & Hsent).
    exists (S k). split; [lia|]. rewrite Hsent. simpl.
    rewrite <- app_assoc. reflexivity.
Qed.

Lemma make_request_sent (req : request) (w : world) :
  exists k : nat,
    (k <= S (retries_allowed cfg))%nat
    /\ sent (snd (_make_request env cfg req w)) = sent w ++ repeat req k.
Proof.
  destruct (should_skip (state w) (clock w)) eqn:Hskip.
  - rewrite make_request_skipped by exact Hskip.
    exists 0%nat. split; [lia|]. simpl. rewrite app_nil_r. reflexivity.
  - destruct (with_retry_sent (retries_allowed cfg) req w) as (k & Hk & Hsent).
    exists k. split; [lia|]. rewrite <- Hsent.
    destruct (with_retry env cfg (retries_allowed cfg) req w) as [[data|e] w1] eqn:Hr.
    + rewrite (make_request_success env cfg req w w1 data Hskip Hr).
      destruct (callback_raises cfg _); reflexivity.
    + rewrite (make_request_failure env cfg req w w1 e Hskip Hr). reflexivity.
Qed.

Lemma save_cache_sent (name : string) (data : json) (w : world) :
  sent (_save_cache env cfg name data w) = sent w.
Proof. unfold _save_cache. destruct (write_result env _); reflexivity. Qed.

Lemma save_cache_state (name : string) (data : json) (w : world) :
  state (_save_cache env cfg name data w) = state w.
Proof. unfold _save_cache. destruct (write_result env _); reflexivity. Qed.

Lemma get_coin_list_sent (w : world) :
  exists k : nat,
    sent (snd (get_coin_list env cfg w)) = sent w ++ repeat coin_list_request k.
Proof.
  destruct (py_truthy (_load_cache env cfg "coin_list" w)) eqn:Hc.
  - rewrite get_coin_list_cached by exact Hc.
    exists 0%nat. simpl. rewrite app_nil_r. reflexivity.
  - rewrite get_coin_list_miss by exact Hc.
    destruct (make_request_sent coin_list_request w) as (k & _ & Hsent).
    exists k. rewrite <- Hsent.
    destruct (_make_request env cfg coin_list_request w) as [[data|e] w1];
      [|reflexivity].
    destruct (py_truthy data); [apply save_cache_sent | reflexivity].
Qed.
End Sent.

(** C6, as the specification has it, fails in its third case: with an empty
    cache directory, a request for a symbol that the coin list does not have
    sends the coin-list request and records its success in the tracker
    before the empty mapping is returned. *)
Lemma C6_unresolved_symbol_counterexample :
  let env := constant_env (ok_response bitcoin_only) in
  let w := empty_world (record_failure fresh_state 900 "timeout") 1000 in
  let res := @get_prices ascii_builtins env default_config ["zzz"] "usd" w in
  @symbol_index ascii_builtins bitcoin_only = Ret {["btc" := JStr "bitcoin"]}
  /\ fst res = Ret ∅
  /\ sent w = []
  /\ sent (snd res) = [coin_list_request]
  /\ state w = {| paused := false; consecutive_failures := 1;
                  auto_pause_until := None; last_error := Some "timeout" |}
  /\ state (snd res) = fresh_state
  /\ state (snd res) <> state w.
Proof.
  repeat split; try (vm_compute; reflexivity). vm_compute. discriminate.
Qed.

(** C6, amended. [get_prices] returns the empty mapping at once, with no
    request sent and the world (the tracker included) unchanged, when the
    symbol list is empty or [should_skip()] is true at entry.  When no
    requested symbol resolves to a provider id, it returns the empty mapping
    and sends no price request: the world is as [get_coin_list] left it, so
    with a valid cached coin list nothing is sent and the tracker is
    unchanged, and otherwise only coin-list requests were sent. *)
Theorem C6_get_prices_early_returns `{Builtins}
    (env : environment) (cfg : config) (vs_currency : string) (w : world) :
  get_prices env cfg [] vs_currency w = (Ret ∅, w)
  /\ (forall symbols : list string,
        should_skip (state w) (clock w) = true ->
        get_prices env cfg symbols vs_currency w = (Ret ∅, w))
  /\ (forall (symbols : list string) (coin_list : json) (w1 : world)
             (idx : gmap string json),
        symbols <> [] ->
        should_skip (state w) (clock w) = false ->
        get_coin_list env cfg w = (Ret coin_list, w1) ->
        symbol_index coin_list = Ret idx ->
        (forall sym : string, sym ∈ symbols -> idx !! str_lower sym = None) ->
        get_prices env cfg symbols vs_currency w = (Ret ∅, w1)
        /\ (exists k : nat, sent w1 = sent w ++ repeat coin_list_request k)
        /\ (py_truthy (_load_cache env cfg "coin_list" w) = true -> w1 = w)).
Proof.
  split; [reflexivity|]. split; [intros symbols; apply get_prices_skipped|].
  intros symbols coin_list w1 idx Hne Hskip Hcl Hidx Hun.
  split; [exact (get_prices_unresolved env cfg symbols vs_currency w w1 coin_list idx
                   Hne Hskip Hcl Hidx Hun)|].
  split.
  - destruct (get_coin_list_sent env cfg w) as [k Hk]. rewrite Hcl in Hk.
    exists k. exact Hk.
  - intros Hc. rewrite get_coin_list_cached in Hcl by exact Hc.
    injection Hcl as _ <-. reflexivity.
Qed.

Lemma C6_early_returns_witness :
  let env := constant_env (TransportError "offline") in
  let s := record_failures (repeat (990%Q, "offline") 10) fresh_state in
  let warm := _save_cache env default_config "coin_list" bitcoin_only
                (empty_world fresh_state 1000) in
  (should_skip s 1000 = true
   /\ @get_prices ascii_builtins env default_config ["btc"] "usd" (empty_world s 1000)
      = (Ret ∅, empty_world s 1000))
  /\ @get_prices ascii_builtins env default_config ["zzz"] "usd" warm = (Ret ∅, warm).
Proof.
  intros env s warm. split.
  - split; [reflexivity|].
    destruct (@C6_get_prices_early_returns ascii_builtins env default_config "usd"
                (empty_world s 1000))
      as (_ & Hskip & _).
    apply Hskip. reflexivity.
  - destruct (@C6_get_prices_early_returns ascii_builtins env default_config "usd" warm)
      as (_ & _ & Hun).
    destruct (Hun ["zzz"] bitcoin_only warm {["btc" := JStr "bitcoin"]}) as (Hres & _).
    + discriminate.
    + reflexivity.
    + vm_compute. reflexivity.
    + vm_compute. reflexivity.
    + intros sym Hsym. apply list_elem_of_singleton in Hsym. subst sym.
      vm_compute. reflexivity.
    + exact Hres.
Defined.




(** ** Symbol resolution *)

Section Resolution.
Context `{Builtins}.


(** Every entry of the index comes from a coin of the list. *)
Lemma build_symbol_to_id_ok (coins : list json) (acc : gmap string json) :
  Forall coin_record coins ->
  exists idx : gmap string json,
    build_symbol_to_id coins acc = Ret idx
    /\ forall (k : string) (v : json),
         idx !! k = Some v ->
         acc !! k = Some v
         \/ exists (coin : json) (sym id : string),
              coin ∈ coins
              /\ py_subscript coin "symbol" = Ret (JStr sym)
              /\ py_subscript coin "id" = Ret (JStr id)
              /\ k = str_lower sym /\ v = JStr id.
Proof.
  intros Hwf. revert acc. induction Hwf as [|coin rest Hcoin Hrest IH]; intros acc.
  - exists acc. split; [reflexivity | auto].
  - destruct Hcoin as (sym & id & Hsym & Hid).
    destruct (IH (<[str_lower sym := JStr id]> acc)) as (idx & Hidx & Hfrom).
    exists idx. split.
    + simpl. unfold mbind, outcome_bind. rewrite Hsym. simpl. rewrite Hid. exact Hidx.
    + intros k v Hk. destruct (Hfrom k v Hk) as [Hacc | (c & s & i & Hc & Hs & Hi & -> & ->)].
      * rewrite lookup_insert in Hacc. case_decide as Hdec.
        -- injection Hacc as <-. subst k. right. exists coin, sym, id.
           repeat split; try assumption. apply list_elem_of_here.
        -- left. exact Hacc.
      * right. exists c, s, i. repeat split; try assumption.
        apply list_elem_of_further, Hc.
Qed.




End Resolution.

Section Fill.
Context `{Builtins}.

End Fill.



(** ** More on the failure tracker *)





(** X2. A success between failures restarts the count: after any run of
    recorded outcomes that ends with a success followed by [k] failures,
    the counter is [k], whatever came before; so nine failures, a success
    and nine more failures do not arm a window. *)
Theorem X2_success_restarts_the_count
    (before : list tracker_event) (calls : list (Q * string)) (s : APIState) :
  let s1 := record_failures calls (record_success (fold_left apply_event before s)) in
  consecutive_failures s1 = Z.of_nat (length calls)
  /\ ((length calls < 10)%nat ->
      auto_pause_until s1 = auto_pause_until (fold_left apply_event before s)
      /\ forall now : Q,
           should_skip s1 now = should_skip (fold_left apply_event before s) now).
Proof.
  intros s1. split.
  - unfold s1. rewrite record_failures_count. simpl. lia.
  - intros Hlt.
    assert (Hu : auto_pause_until s1 = auto_pause_until (fold_left apply_event before s)).
    { unfold s1. rewrite record_failures_below_threshold; [reflexivity|]. simpl. lia. }
    split; [exact Hu|]. intros now. unfold should_skip, armed. rewrite Hu.
    unfold s1. rewrite record_failures_paused. reflexivity.
Qed.

Lemma X2_success_restarts_witness :
  auto_pause_until
    (record_failures (repeat (20%Q, "down") 9)
       (record_success (fold_left apply_event (repeat (Failed 10 "down") 9) fresh_state)))
  = None.
Proof.
  destruct (X2_success_restarts_the_count (repeat (Failed 10 "down") 9)
              (repeat (20%Q, "down") 9) fresh_state) as [_ Hkeep].
  destruct (Hkeep ltac:(simpl; lia)) as [Hu _]. exact Hu.
Defined.

(** X3. [resume()] is a full reset of the pause machinery from any state:
    [should_skip] is false at once, the counter is 0, and up to nine
    further failures leave [should_skip] false; [last_error] is not
    cleared. *)
Theorem X3_resume_resets (s : APIState) (calls : list (Q * string)) (now : Q) :
  (length calls <= 9)%nat ->
  should_skip (resume s) now = false
  /\ consecutive_failures (resume s) = 0
  /\ last_error (resume s) = last_error s
  /\ should_skip (record_failures calls (resume s)) now = false.
Proof.
  intros Hlen. repeat split.
  unfold should_skip, armed.
  rewrite record_failures_paused, record_failures_below_threshold; [reflexivity|].
  simpl. lia.
Qed.

Lemma X3_resume_resets_witness :
  should_skip
    (record_failures (repeat (50%Q, "down") 9)
       (resume (record_failures (repeat (0%Q, "down") 12) fresh_state)))
    60
  = false.
Proof.
  destruct (X3_resume_resets (record_failures (repeat (0%Q, "down") 12) fresh_state)
              (repeat (50%Q, "down") 9) 60 ltac:(simpl; lia))
    as (_ & _ & _ & Hskip).
  exact Hskip.
Defined.

(** ** More on the request pipeline *)

Section Retry.
Context `{Builtins} (env : environment) (cfg : config).

Lemma do_request_eq (req : request) (w : world) :
  do_request env req w
  = (attempt_result (net env (length (sent w)) req), after_get env req w).
Proof.
  unfold do_request, attempt_result.
  destruct (net env (length (sent w)) req) as [t|r]; [reflexivity|].
  destruct (status_code r =? 429); [reflexivity|].
  destruct (is_http_error (status_code r)); [reflexivity|].
  destruct (content r) as [data|t]; [|reflexivity].
  destruct (embedded_rate_limit data); reflexivity.
Qed.




Lemma with_retry_frame (R : nat) (req : request) (w : world) :
  state (snd (with_retry env cfg R req w)) = state w
  /\ fs (snd (with_retry env cfg R req w)) = fs w.
Proof.
  revert w. induction R as [|R IH]; intros w; simpl; unfold try_except;
    rewrite do_request_eq; destruct (attempt_result _) as [a|e]; try (split; reflexivity).
  - destruct e; split; reflexivity.
  - destruct e; try (split; reflexivity).
    unfold mbind, M_bind, bind, modify.
    destruct (IH (tick (inject_Z (retry_wait cfg)) (after_get env req w))) as [Hs Hf].
    rewrite Hs, Hf. split; reflexivity.
Qed.

Lemma with_retry_clock_le (R : nat) (req : request) (w : world) :
  (forall n : nat, (0 <= latency env n)%Q) ->
  0 <= retry_wait cfg ->
  (clock w <= clock (snd (with_retry env cfg R req w)))%Q.
Proof.
  intros Hlat Hwait.
  assert (Hget : forall w0 : world, (clock w0 <= clock (after_get env req w0))%Q).
  { intros w0. simpl. rewrite <- (Qplus_0_r (clock w0)) at 1.
    apply Qplus_le_compat; [apply Qle_refl | apply Hlat]. }
  revert w. induction R as [|R IH]; intros w; simpl; unfold try_except;
    rewrite do_request_eq; destruct (attempt_result _) as [a|e]; try apply Hget.
  - destruct e; apply Hget.
  - destruct e; try apply Hget.
    unfold mbind, M_bind, bind, modify.
    eapply Qle_trans; [apply Hget|].
    eapply Qle_trans; [|apply IH]. simpl.
    rewrite <- (Qplus_0_r (clock w + latency env (length (sent w)))) at 1.
    apply Qplus_le_compat; [apply Qle_refl|].
    change 0%Q with (inject_Z 0). rewrite <- Zle_Qle. exact Hwait.
Qed.

(** Against a provider that never gives a usable answer the attempts end in
    an exception. *)
Lemma with_retry_raises (R : nat) (req : request) (w : world) :
  (forall (n : nat) (r : request), exists e : pyexn, attempt_result (net env n r) = Raise e) ->
  exists e : pyexn, fst (with_retry env cfg R req w) = Raise e.
Proof.
  intros Hdown. revert w. induction R as [|R IH]; intros w; simpl; unfold try_except;
    rewrite do_request_eq;
    destruct (Hdown (length (sent w)) req) as [e ->].
  - destruct e; eauto.
  - destruct e; eauto. unfold mbind, M_bind, bind, modify. apply IH.
Qed.

End Retry.





(** X6. Every call of [_make_request] that is not skipped records exactly
    one outcome, however many attempts it made: with an observer that does
    not raise, either a payload is returned and the tracker is
    [record_success] of what it was, or [None] is returned and the tracker
    is [record_failure] of what it was, at the clock reading at the end of
    the call.  The cache directory is not touched. *)
Theorem X6_one_outcome_per_call `{Builtins}
    (env : environment) (cfg : config) (req : request) (w : world) :
  observer_quiet cfg ->
  should_skip (state w) (clock w) = false ->
  let res := _make_request env cfg req w in
  fs (snd res) = fs w
  /\ ((exists data : json,
         fst res = Ret data /\ state (snd res) = record_success (state w))
      \/ (exists message : string,
            fst res = Ret JNull
            /\ state (snd res) = record_failure (state w) (clock (snd res)) message)).
Proof.
  intros Hq Hskip res.
  destruct (with_retry_frame env cfg (retries_allowed cfg) req w) as [Hs Hf].
  destruct (with_retry env cfg (retries_allowed cfg) req w) as [[data|e] w1] eqn:Hr;
    simpl in Hs, Hf.
  - pose proof (make_request_success env cfg req w w1 data Hskip Hr) as Hmr.
    simpl in Hmr. rewrite (Hq (record_success (state w1))) in Hmr.
    unfold res. rewrite Hmr. simpl. split; [exact Hf|].
    left. exists data. rewrite Hs. split; reflexivity.
  - pose proof (make_request_failure env cfg req w w1 e Hskip Hr) as Hmr.
    simpl in Hmr. rewrite Hq in Hmr.
    unfold res. rewrite Hmr. simpl. split; [exact Hf|].
    right. exists (failure_message e). rewrite Hs. split; reflexivity.
Qed.

Lemma X6_one_outcome_witness :
  let res := @_make_request ascii_builtins (constant_env (Response too_many_requests))
               default_config coin_list_request (empty_world fresh_state 1000) in
  fs (snd res) = ∅
  /\ consecutive_failures (state (snd res)) = 1.
Proof.
  intros res.
  destruct (@X6_one_outcome_per_call ascii_builtins
              (constant_env (Response too_many_requests)) default_config
              coin_list_request (empty_world fresh_state 1000)
              ltac:(intros s; reflexivity) eq_refl)
    as (Hfs & _).
  split; [exact Hfs | reflexivity].
Defined.

(** ** Auto-pause, end to end *)

Section Outage.
Context `{Builtins} (env : environment) (cfg : config).
Hypothesis provider_down :
  forall (n : nat) (r : request), exists e : pyexn, attempt_result (net env n r) = Raise e.
Hypothesis latency_nonneg : forall n : nat, (0 <= latency env n)%Q.
Hypothesis wait_nonneg : 0 <= retry_wait cfg.

Lemma failing_call (req : request) (w : world) :
  should_skip (state w) (clock w) = false ->
  let w' := snd (_make_request env cfg req w) in
  (exists message : string, state w' = record_failure (state w) (clock w') message)
  /\ (clock w <= clock w')%Q.
Proof.
  intros Hskip.
  destruct (with_retry_raises env cfg (retries_allowed cfg) req w provider_down) as [e He].
  destruct (with_retry_frame env cfg (retries_allowed cfg) req w) as [Hs _].
  pose proof (with_retry_clock_le env cfg (retries_allowed cfg) req w
                latency_nonneg wait_nonneg) as Hclock.
  destruct (with_retry env cfg (retries_allowed cfg) req w) as [r w1] eqn:Hr.
  simpl in He, Hs, Hclock. subst r.
  rewrite (make_request_failure env cfg req w w1 e Hskip Hr). simpl.
  split; [|exact Hclock]. exists (failure_message e). rewrite Hs. reflexivity.
Qed.

Lemma outage_invariant (reqs : list request) :
  forall (w : world) (c : Z),
    paused (state w) = false ->
    auto_pause_until (state w) = None ->
    consecutive_failures (state w) = c ->
    c + Z.of_nat (length reqs) <= 10 ->
    (0 <= clock w)%Q ->
    let w' := run_requests env cfg reqs w in
    paused (state w') = false
    /\ consecutive_failures (state w') = c + Z.of_nat (length reqs)
    /\ (0 <= clock w')%Q
    /\ (c + Z.of_nat (length reqs) < 10 -> auto_pause_until (state w') = None)
    /\ (reqs <> [] -> c + Z.of_nat (length reqs) = 10 ->
        auto_pause_until (state w') = Some (clock w' + AUTO_PAUSE_SECONDS)%Q).
Proof.
  induction reqs as [|req rest IH]; intros w c Hp Hu Hc Hle Hclock.
  - simpl. split; [exact Hp|]. split; [lia|]. split; [exact Hclock|].
    split; [intros _; exact Hu | intros Hne; contradiction].
  - assert (Hskip : should_skip (state w) (clock w) = false).
    { unfold should_skip, armed. rewrite Hp, Hu. reflexivity. }
    destruct (failing_call req w Hskip) as [[message Hst] Hmono].
    set (w1 := snd (_make_request env cfg req w)) in *.
    assert (Hclock1 : (0 <= clock w1)%Q) by (eapply Qle_trans; eassumption).
    assert (Hp1 : paused (state w1) = false) by (rewrite Hst; exact Hp).
    assert (Hc1 : consecutive_failures (state w1) = c + 1) by (rewrite Hst; simpl; lia).
    change (run_requests env cfg (req :: rest) w) with (run_requests env cfg rest w1).
    simpl length in *. destruct rest as [|req2 rest'].
    + simpl. split; [exact Hp1|]. split; [lia|]. split; [exact Hclock1|]. split.
      * intros Hlt. rewrite Hst. simpl.
        destruct (Z.leb_spec 10 (consecutive_failures (state w) + 1)); [lia | exact Hu].
      * intros _ Hten. rewrite Hst. simpl.
        destruct (Z.leb_spec 10 (consecutive_failures (state w) + 1)); [reflexivity | lia].
    + assert (Hu1 : auto_pause_until (state w1) = None).
      { rewrite Hst. simpl. simpl length in Hle.
        destruct (Z.leb_spec 10 (consecutive_failures (state w) + 1)); [lia | exact Hu]. }
      destruct (IH w1 (c + 1) Hp1 Hu1 Hc1 ltac:(lia) Hclock1) as (Ha & Hb & Hd & He & Hf).
      split; [exact Ha|]. split; [lia|]. split; [exact Hd|]. split.
      * intros Hlt. apply He. lia.
      * intros _ Hten. apply Hf; [discriminate | lia].
Qed.
End Outage.

(** X7. Auto-pause, end to end.  Let the provider give no usable answer and
    the clock not run backwards (latencies and [retry_wait] not negative).  Starting from a tracker that is not paused,
    has no window armed and counts 0, ten calls of [_make_request] in a row
    leave the counter at 10 and a window armed 30 minutes after the end of
    the tenth call; for the next 30 minutes [_make_request] and [get_prices]
    return at once with nothing sent and nothing changed. *)
Theorem X7_ten_failed_calls_pause_the_client `{Builtins}
    (env : environment) (cfg : config) (reqs : list request) (w : world) :
  (forall (n : nat) (r : request), exists e : pyexn, attempt_result (net env n r) = Raise e) ->
  (forall n : nat, (0 <= latency env n)%Q) ->
  0 <= retry_wait cfg ->
  paused (state w) = false ->
  auto_pause_until (state w) = None ->
  consecutive_failures (state w) = 0 ->
  (0 <= clock w)%Q ->
  length reqs = 10%nat ->
  let w' := run_requests env cfg reqs w in
  consecutive_failures (state w') = 10
  /\ auto_pause_until (state w') = Some (clock w' + AUTO_PAUSE_SECONDS)%Q
  /\ forall d : Q, (d < AUTO_PAUSE_SECONDS)%Q ->
       is_paused (tick d w') = true
       /\ (forall req : request,
             _make_request env cfg req (tick d w') = (Ret JNull, tick d w'))
       /\ (forall (symbols : list string) (vs_currency : string),
             get_prices env cfg symbols vs_currency (tick d w') = (Ret ∅, tick d w')).
Proof.
  intros Hdown Hlat Hwait Hp Hu Hc Hclock Hlen w'.
  destruct (outage_invariant env cfg Hdown Hlat Hwait reqs w 0 Hp Hu Hc
              ltac:(rewrite Hlen; lia) Hclock)
    as (Hp' & Hc' & Hclock' & _ & Harmed).
  fold w' in Hp', Hc', Hclock', Harmed.
  assert (Ha : auto_pause_until (state w') = Some (clock w' + AUTO_PAUSE_SECONDS)%Q).
  { apply Harmed; [|rewrite Hlen; reflexivity]. intros ->. discriminate Hlen. }
  split; [rewrite Hc', Hlen; reflexivity|]. split; [exact Ha|].
  intros d Hd.
  assert (Hskip : should_skip (state (tick d w')) (clock (tick d w')) = true).
  { simpl. apply (should_skip_armed _ _ _ Ha).
    - apply auto_pause_deadline_pos, Hclock'.
    - apply Qplus_lt_r. exact Hd. }
  split; [exact Hskip|]. split.
  - intros req. apply make_request_skipped, Hskip.
  - intros symbols vs_currency. apply get_prices_skipped, Hskip.
Qed.

Lemma X7_ten_failed_calls_witness :
  let env := constant_env (TransportError "offline") in
  let w' := @run_requests ascii_builtins env default_config
              (repeat coin_list_request 10) (empty_world fresh_state 1000) in
  consecutive_failures (state w') = 10
  /\ @get_prices ascii_builtins env default_config ["btc"] "usd" (tick 1799 w')
     = (Ret ∅, tick 1799 w').
Proof.
  intros env w'.
  destruct (@X7_ten_failed_calls_pause_the_client ascii_builtins env default_config
              (repeat coin_list_request 10) (empty_world fresh_state 1000))
    as (Hcount & _ & Hpaused).
  - intros n r. exists (RequestException "offline"). reflexivity.
  - intros n. discriminate.
  - discriminate.
  - reflexivity.
  - reflexivity.
  - reflexivity.
  - discriminate.
  - reflexivity.
  - split; [exact Hcount|].
    destruct (Hpaused 1799%Q eq_refl) as (_ & _ & Hprices). apply Hprices.
Defined.

(** ** The cached lists *)

Section Lists.
Context `{Builtins} (env : environment) (cfg : config).

Lemma make_request_fs (req : request) (w : world) :
  fs (snd (_make_request env cfg req w)) = fs w.
Proof.
  destruct (should_skip (state w) (clock w)) eqn:Hskip.
  - rewrite make_request_skipped by exact Hskip. reflexivity.
  - destruct (with_retry_frame env cfg (retries_allowed cfg) req w) as [_ Hf].
    destruct (with_retry env cfg (retries_allowed cfg) req w) as [[data|e] w1] eqn:Hr;
      simpl in Hf.
    + rewrite (make_request_success env cfg req w w1 data Hskip Hr).
      destruct (callback_raises cfg _); exact Hf.
    + rewrite (make_request_failure env cfg req w w1 e Hskip Hr). exact Hf.
Qed.


End Lists.



(** X9. [CoinGeckoAPI.pause] sets the flag before it notifies, so the client
    is paused even if the observer raises, and it stays paused at every
    later time, whatever outcomes are recorded; [CoinGeckoAPI.resume] after
    it leaves the tracker as [resume()] of the state before the pause: not
    paused, counter 0, and any auto-pause window discarded as well.  The
    pause toggle of the tray menu does exactly these two calls. *)
Theorem X9_pause_then_resume (cfg : config) (w : world) :
  let w1 := snd (pause cfg w) in
  let w2 := snd (api_resume cfg w1) in
  w1 = set_state (set_paused (state w)) w
  /\ (forall (events : list tracker_event) (now : Q),
        should_skip (fold_left apply_event events (state w1)) now = true)
  /\ w2 = set_state (resume (state w)) w
  /\ (forall now : Q, should_skip (state w2) now = false)
  /\ (forall e : pyexn, fst (pause cfg w) = Raise e ->
        callback_raises cfg (set_paused (state w)) = Some e)
  /\ snd (_on_pause_toggled cfg true w) = w1
  /\ snd (_on_pause_toggled cfg false w1) = w2.
Proof.
  intros w1 w2.
  assert (H1 : w1 = set_state (set_paused (state w)) w).
  { unfold w1, pause, mbind, M_bind, bind, modify, _notify_state_change. simpl.
    destruct (callback_raises cfg _); reflexivity. }
  assert (H2 : w2 = set_state (resume (state w)) w).
  { unfold w2. rewrite H1.
    unfold api_resume, mbind, M_bind, bind, modify, _notify_state_change. simpl.
    destruct (callback_raises cfg _); reflexivity. }
  split; [exact H1|]. split.
  { intros events now. rewrite H1. simpl.
    assert (Hp : forall (evs : list tracker_event) (s : APIState),
              paused s = true -> paused (fold_left apply_event evs s) = true).
    { induction evs as [|ev evs IH]; intros s Hs; [exact Hs|].
      simpl. apply IH. destruct ev; simpl; [exact Hs | exact Hs | reflexivity]. }
    unfold should_skip. rewrite (Hp events (set_paused (state w)) eq_refl). reflexivity. }
  split; [exact H2|]. split.
  { intros now. rewrite H2. reflexivity. }
  split.
  { intros e. unfold pause, mbind, M_bind, bind, modify, _notify_state_change. simpl.
    destruct (callback_raises cfg (set_paused (state w))); simpl; congruence. }
  split.
  - unfold w1, _on_pause_toggled, mbind, M_bind, bind.
    destruct (pause cfg w) as [[u|e] w']; reflexivity.
  - unfold w2, _on_pause_toggled, mbind, M_bind, bind.
    destruct (api_resume cfg w1) as [[u|e] w']; reflexivity.
Qed.



Lemma X9_pause_then_resume_witness :
  let w := empty_world fresh_state 1000 in
  callback_raises raising_observer_config (set_paused (state w))
  = Some (OtherException "observer failed")
  /\ should_skip (state (snd (pause raising_observer_config w))) 5000 = true.
Proof.
  intros w.
  destruct (X9_pause_then_resume raising_observer_config w)
    as (_ & Hstays & _ & _ & Hraise & _).
  split.
  - apply Hraise. reflexivity.
  - apply (Hstays [] 5000%Q).
Defined.

(** X11. A fetched coin list is reused and a fallback is not kept.  When the
    cache has no usable entry and the fetch returns a non-empty value, a
    second [get_coin_list] less than 24 hours later returns the same value
    from the cache, with no request and no change to the world (the disk
    working); when the fetch gives nothing, the built-in list is returned
    and the cache directory is left as it was, so the next call tries the
    network again. *)
Theorem X11_coin_list_caching `{Builtins}
    (env : environment) (cfg : config) (w w1 : world) (data : json) :
  py_truthy (_load_cache env cfg "coin_list" w) = false ->
  _make_request env cfg coin_list_request w = (Ret data, w1) ->
  (py_truthy data = true ->
   write_result env (_get_cache_path cfg "coin_list") = WriteOk ->
   read_fails env (_get_cache_path cfg "coin_list") = false ->
   forall d : Q, (d < CACHE_DURATION)%Q ->
     let w2 := tick d (snd (get_coin_list env cfg w)) in
     fst (get_coin_list env cfg w) = Ret data
     /\ get_coin_list env cfg w2 = (Ret data, w2))
  /\ (py_truthy data = false ->
      get_coin_list env cfg w = (Ret default_coins, w1) /\ fs w1 = fs w).
Proof.
  intros Hmiss Hreq. rewrite (get_coin_list_miss env cfg w Hmiss), Hreq. split.
  - intros Hd Hw Hr d Hfresh. rewrite Hd. simpl. split; [reflexivity|].
    pose proof (load_after_save env cfg "coin_list" data w1 d Hw Hr Hfresh) as Hload.
    rewrite get_coin_list_cached; rewrite Hload; [reflexivity | exact Hd].
  - intros Hd. rewrite Hd. split; [reflexivity|].
    pose proof (make_request_fs env cfg coin_list_request w) as Hfs.
    rewrite Hreq in Hfs. exact Hfs.
Qed.

Lemma X11_coin_list_caching_witness :
  let env := scripted_env (ok_response bitcoin_only) (TransportError "offline") in
  let w := empty_world fresh_state 1000 in
  let w2 := tick 3600 (snd (@get_coin_list ascii_builtins env default_config w)) in
  @get_coin_list ascii_builtins env default_config w2 = (Ret bitcoin_only, w2).
Proof.
  intros env w w2.
  destruct (@X11_coin_list_caching ascii_builtins env default_config w
              (snd (@_make_request ascii_builtins env default_config coin_list_request w))
              bitcoin_only eq_refl eq_refl)
    as [Hreuse _].
  destruct (Hreuse eq_refl eq_refl eq_refl 3600%Q eq_refl) as [_ Hsecond].
  exact Hsecond.
Defined.

(** ** More on symbol resolution *)

Section Index.
Context `{Builtins}.

Lemma build_symbol_to_id_app (l1 l2 : list json) (acc : gmap string json) :
  build_symbol_to_id (l1 ++ l2) acc
  = match build_symbol_to_id l1 acc with
    | Ret m => build_symbol_to_id l2 m
    | Raise e => Raise e
    end.
Proof.
  revert acc. induction l1 as [|coin l1 IH]; intros acc; [reflexivity|].
  simpl. unfold mbind, outcome_bind.
  destruct (py_subscript coin "symbol") as [sym|e]; [|reflexivity].
  destruct (py_lower sym) as [key|e]; [|reflexivity].
  destruct (py_subscript coin "id") as [coin_id|e]; [|reflexivity].
  apply IH.
Qed.

(** Coins with other symbols leave an entry of the index alone. *)
Lemma build_symbol_to_id_other (coins : list json) (acc idx : gmap string json)
    (key : string) :
  (forall (coin : json) (sym : string),
     coin ∈ coins -> py_subscript coin "symbol" = Ret (JStr sym) -> str_lower sym <> key) ->
  build_symbol_to_id coins acc = Ret idx ->
  idx !! key = acc !! key.
Proof.
  revert acc. induction coins as [|coin rest IH]; intros acc Hother.
  - intros [= <-]. reflexivity.
  - simpl. unfold mbind, outcome_bind.
    destruct (py_subscript coin "symbol") as [sym|e] eqn:Hsym; [|discriminate].
    destruct (py_lower sym) as [k|e] eqn:Hk; [|discriminate].
    destruct (py_subscript coin "id") as [coin_id|e]; [|discriminate].
    intros Hb. rewrite (IH _ (fun c s Hc => Hother c s (list_elem_of_further _ _ _ Hc)) Hb).
    apply lookup_insert_ne.
    destruct sym; try discriminate. simpl in Hk. injection Hk as <-.
    apply (Hother coin s); [apply list_elem_of_here | exact Hsym].
Qed.
End Index.

(** X12. When several coins of the list share a symbol, case ignored, the
    symbol index keeps the id of the last of them: for a list of coin
    records, a coin after which no coin has the same lowercase symbol is
    the one its symbol resolves to. *)
Theorem X12_last_coin_wins `{Builtins}
    (before after : list json) (coin : json) (sym id : string) :
  Forall coin_record (before ++ coin :: after) ->
  py_subscript coin "symbol" = Ret (JStr sym) ->
  py_subscript coin "id" = Ret (JStr id) ->
  (forall (c : json) (s : string),
     c ∈ after -> py_subscript c "symbol" = Ret (JStr s) -> str_lower s <> str_lower sym) ->
  exists idx : gmap string json,
    symbol_index (JArr (before ++ coin :: after)) = Ret idx
    /\ idx !! str_lower sym = Some (JStr id).
Proof.
  intros Hwf Hsym Hid Hlast.
  destruct (build_symbol_to_id_ok (before ++ coin :: after) ∅ Hwf) as (idx & Hidx & _).
  exists idx. split; [exact Hidx|].
  rewrite build_symbol_to_id_app in Hidx.
  destruct (build_symbol_to_id before ∅) as [m|e]; [|discriminate].
  simpl in Hidx. unfold mbind, outcome_bind in Hidx. rewrite Hsym in Hidx. simpl in Hidx.
  rewrite Hid in Hidx.
  rewrite (build_symbol_to_id_other after _ idx (str_lower sym) Hlast Hidx).
  apply lookup_insert_eq.
Qed.

Lemma X12_last_coin_wins_witness :
  exists idx : gmap string json,
    @symbol_index ascii_builtins
      (JArr [JObj [("id", JStr "batcat"); ("symbol", JStr "BTC")]; bitcoin_record])
    = Ret idx
    /\ idx !! "btc" = Some (JStr "bitcoin").
Proof.
  apply (@X12_last_coin_wins ascii_builtins
           [JObj [("id", JStr "batcat"); ("symbol", JStr "BTC")]] [] bitcoin_record
           "btc" "bitcoin").
  - repeat constructor.
    + exists "BTC", "batcat". split; reflexivity.
    + exists "btc", "bitcoin". split; reflexivity.
  - reflexivity.
  - reflexivity.
  - intros c s Hc. apply elem_of_nil in Hc. contradiction.
Defined.

(** X13. A price fetch that fails gives the empty mapping and leaves its
    reason in the tracker: when [get_prices] has resolved at least one
    requested symbol and every attempt of the price request ends in an
    exception [e], it returns the empty mapping, having recorded one failure
    whose message ("Rate limited: ..." for a rate limit, [str(e)] otherwise)
    is in [last_error].  (The observer is taken not to raise.) *)
Theorem X13_failed_price_fetch `{Builtins}
    (env : environment) (cfg : config) (symbols : list string) (vs_currency : string)
    (w w1 w2 : world) (coin_list : json) (idx : gmap string json)
    (ids : list json) (symbol_map : gmap string string) (joined : string) (e : pyexn) :
  observer_quiet cfg ->
  should_skip (state w) (clock w) = false ->
  get_coin_list env cfg w = (Ret coin_list, w1) ->
  symbol_index coin_list = Ret idx ->
  resolve symbols idx [] ∅ = (ids, symbol_map) ->
  ids <> [] ->
  str_join "," ids = Ret joined ->
  should_skip (state w1) (clock w1) = false ->
  with_retry env cfg (retries_allowed cfg) (price_request joined vs_currency) w1
  = (Raise e, w2) ->
  let w3 := set_state (record_failure (state w1) (clock w2) (failure_message e)) w2 in
  get_prices env cfg symbols vs_currency w = (Ret ∅, w3)
  /\ last_error (state w3) = Some (failure_message e)
  /\ consecutive_failures (state w3) = consecutive_failures (state w1) + 1.
Proof.
  intros Hq Hskip Hcl Hidx Hres Hids Hjoin Hskip1 Hr w3.
  assert (Hne : symbols <> []).
  { intros ->. simpl in Hres. injection Hres as <- _. contradiction. }
  split; [|split; reflexivity].
  rewrite get_prices_after_guards by assumption.
  unfold prices_after_guards, mbind, M_bind, bind, lift. rewrite Hcl, Hidx, Hres.
  destruct ids as [|i ids']; [contradiction|]. rewrite Hjoin.
  rewrite (make_request_failure env cfg _ w1 w2 e Hskip1 Hr). simpl.
  rewrite Hq.
  destruct (with_retry_frame env cfg (retries_allowed cfg)
              (price_request joined vs_currency) w1) as [Hs _].
  rewrite Hr in Hs. simpl in Hs. unfold w3. rewrite Hs. reflexivity.
Qed.

Lemma X13_failed_price_fetch_witness :
  let env := scripted_env (ok_response bitcoin_only) (Response too_many_requests) in
  let res := @get_prices ascii_builtins env default_config ["btc"] "usd"
               (empty_world fresh_state 1000) in
  fst res = Ret ∅
  /\ last_error (state (snd res)) = Some "Rate limited: Rate limited by API".
Proof.
  intros env res.
  set (w := empty_world fresh_state 1000).
  set (w1 := snd (@get_coin_list ascii_builtins env default_config w)).
  destruct (@X13_failed_price_fetch ascii_builtins env default_config ["btc"] "usd"
              w w1
              (snd (@with_retry ascii_builtins env default_config
                      (retries_allowed default_config) (price_request "bitcoin" "usd") w1))
              bitcoin_only {["btc" := JStr "bitcoin"]} [JStr "bitcoin"]
              {["bitcoin" := "btc"]} "bitcoin" (RateLimitError "Rate limited by API"))
    as (Hres & Herr & _).
  - intros s. reflexivity.
  - reflexivity.
  - vm_compute. reflexivity.
  - vm_compute. reflexivity.
  - vm_compute. reflexivity.
  - discriminate.
  - reflexivity.
  - reflexivity.
  - vm_compute. reflexivity.
  - subst res. fold w. rewrite Hres. split; [reflexivity | exact Herr].
Defined.

(** ** The callers *)

Lemma int_of_float_le_0 (x : Q) : int_of_float x <= 0 <-> (x < 1)%Q.
Proof.
  destruct (Qlt_le_dec x 0) as [Hneg | Hpos].
  - split.
    + intros _. apply Qlt_trans with (y := 0%Q); [exact Hneg | reflexivity].
    + intros _. apply int_of_float_nonpos, Qlt_le_weak, Hneg.
  - rewrite (int_of_float_nonneg x Hpos). split.
    + intros Hfl. eapply Qlt_le_trans; [apply Qlt_floor|].
      change 1%Q with (inject_Z 1). rewrite <- Zle_Qle. lia.
    + intros Hlt.
      assert (Hle : (inject_Z (Qfloor x) < inject_Z 1)%Q).
      { eapply Qle_lt_trans; [apply Qfloor_le | exact Hlt]. }
      rewrite <- Zlt_Qlt in Hle. lia.
Qed.

(** X14. [_check_auto_resume] acts only on an armed window, and it acts as
    soon as less than one second of it is left, the remaining time being
    truncated to whole seconds: it then calls [CoinGeckoAPI.resume], which
    resets the counter and lifts a manual pause as well, so [should_skip]
    is false afterwards; with a second or more left, or no window armed, it
    changes nothing and schedules nothing. *)
Theorem X14_check_auto_resume (cfg : config) (w : world) :
  (armed (state w) = None -> _check_auto_resume cfg w = (Ret false, w))
  /\ (forall t : Q,
        armed (state w) = Some t ->
        ((1 <= t - clock w)%Q -> _check_auto_resume cfg w = (Ret false, w))
        /\ ((t - clock w < 1)%Q ->
            snd (_check_auto_resume cfg w) = set_state (resume (state w)) w
            /\ (forall now : Q,
                  should_skip (state (snd (_check_auto_resume cfg w))) now = false)
            /\ (callback_raises cfg (resume (state w)) = None ->
                fst (_check_auto_resume cfg w) = Ret true))).
Proof.
  unfold _check_auto_resume, get_auto_resume_remaining. split.
  - intros ->. reflexivity.
  - intros t ->. split.
    + intros Hleft.
      destruct (Z.leb_spec (Z.max 0 (int_of_float (t - clock w))) 0) as [Hle|]; [|reflexivity].
      exfalso. assert (Hi : int_of_float (t - clock w) <= 0) by lia.
      apply int_of_float_le_0 in Hi. exact (Qlt_not_le _ _ Hi Hleft).
    + intros Hleft. apply int_of_float_le_0 in Hleft.
      destruct (Z.leb_spec (Z.max 0 (int_of_float (t - clock w))) 0) as [|Hgt]; [|lia].
      unfold api_resume, mbind, M_bind, bind, modify, _notify_state_change. simpl.
      destruct (callback_raises cfg (resume (state w))); simpl.
      * split; [reflexivity|]. split; [reflexivity | discriminate].
      * split; [reflexivity|]. split; reflexivity.
Qed.

Lemma X14_check_auto_resume_witness :
  let s := set_paused (record_failures (repeat (0%Q, "down") 10) fresh_state) in
  let w := empty_world s (17995 # 10) in
  should_skip s (17995 # 10) = true
  /\ snd (_check_auto_resume default_config w) = set_state (resume s) w.
Proof.
  intros s w. split; [reflexivity|].
  destruct (X14_check_auto_resume default_config w) as [_ Harmed].
  destruct (Harmed (0 + AUTO_PAUSE_SECONDS)%Q eq_refl) as [_ Hfire].
  destruct (Hfire eq_refl) as [Hres _]. exact Hres.
Defined.

(** X15. The signals of one [PriceWorker.fetch] come in a fixed pattern: at
    most one report on the main price (the price followed by
    [fetch_success], or one [fetch_error]) and then at most one report on
    the secondary prices (a non-empty mapping, or one [fetch_error]).  So
    [fetch_success] is emitted only right after a price, an empty mapping
    is never emitted, and there are at most three signals.  When the client
    is paused, or was never initialised, nothing is emitted and nothing
    changes. *)
Theorem X15_fetch_signal_pattern `{Builtins}
    (env : environment) (api : option config) (symbol vs_currency : string)
    (secondary : list string) (w : world) :
  (exists main sec : list signal,
     fst (fetch env api symbol vs_currency secondary w) = main ++ sec
     /\ (main = []
         \/ (exists p : Q, main = [price_fetched p; fetch_success])
         \/ (exists m : string, main = [fetch_error m]))
     /\ (sec = []
         \/ (exists prices : gmap string Q, prices <> ∅ /\ sec = [secondary_fetched prices])
         \/ (exists m : string, sec = [fetch_error m])))
  /\ (forall cfg : config,
        api = Some cfg -> is_paused w = true ->
        fetch env api symbol vs_currency secondary w = ([], w))
  /\ (api = None -> fetch env api symbol vs_currency secondary w = ([], w)).
Proof.
  split; [|split].
  - unfold fetch.
    destruct (match api with Some _ => is_paused w | None => false end).
    { exists [], []. split; [reflexivity|]. split; left; reflexivity. }
    destruct (module_get_price env api symbol vs_currency w) as [[price|e] w1].
    2:{ exists [fetch_error (str_exn e)], []. split; [reflexivity|].
        split; [right; right; eauto | left; reflexivity]. }
    set (main := match price with
                 | Some p => [price_fetched p; fetch_success]
                 | None => report_error api w1
                 end).
    assert (Hmain : main = []
                    \/ (exists p : Q, main = [price_fetched p; fetch_success])
                    \/ (exists m : string, main = [fetch_error m])).
    { unfold main, report_error. destruct price as [p|]; [right; left; eauto|].
      destruct api; [|left; reflexivity].
      destruct (reportable_error (state w1)); [right; right; eauto | left; reflexivity]. }
    destruct secondary as [|sym rest].
    { exists main, []. rewrite app_nil_r. split; [reflexivity|].
      split; [exact Hmain | left; reflexivity]. }
    destruct (module_get_prices env api (sym :: rest) vs_currency w1) as [[prices|e] w2].
    + destruct (decide (prices = ∅)) as [Hempty|Hfull].
      * exists main, (report_error api w2). split; [reflexivity|]. split; [exact Hmain|].
        unfold report_error. destruct api; [|left; reflexivity].
        destruct (reportable_error (state w2)); [right; right; eauto | left; reflexivity].
      * exists main, [secondary_fetched prices]. split; [reflexivity|].
        split; [exact Hmain|]. right. left. eauto.
    + exists main, [fetch_error (str_exn e)]. split; [reflexivity|].
      split; [exact Hmain|]. right. right. eauto.
  - intros cfg -> Hp. unfold fetch. rewrite Hp. reflexivity.
  - intros ->. unfold fetch, module_get_price, module_get_prices. simpl.
    destruct secondary; reflexivity.
Qed.

Lemma X15_fetch_signal_witness :
  let env := constant_env (ok_response bitcoin_only) in
  let w := empty_world (set_paused fresh_state) 1000 in
  @fetch ascii_builtins env (Some default_config) "btc" "usd" ["eth"] w = ([], w).
Proof.
  intros env w.
  destruct (@X15_fetch_signal_pattern ascii_builtins env (Some default_config)
              "btc" "usd" ["eth"] w)
    as (_ & Hpaused & _).
  apply (Hpaused default_config); reflexivity.
Defined.



(** ** Single prices *)





